(** * HomeKit thermostat and water-heater accessories

    A shallow embedding of
    [homeassistant/components/homekit/type_thermostats.py]: the mode
    tables, the [Thermostat] and [WaterHeater] accessories with their
    [update_state], [_set_chars] and [get_temperature_range] methods, and
    the properties of the translation between a climate entity and the
    HomeKit thermostat service. *)

From Stdlib Require Import ZArith QArith Qround Qminmax Qabs Lqa.
From stdpp Require Import base option list finite gmap strings.

Local Open Scope string_scope.
Local Open Scope Z_scope.

(** ** Python values *)

Module Py.

(** The values the accessories read from entity attributes and receive in
    characteristic writes: [None], [int], [float] and [str].  A float is
    modelled by a rational; NaN and the infinities are outside the model.
    A Python [bool] is an [int] (1 or 0). *)
Inductive pyval : Type :=
  | PNone
  | PInt (z : Z)
  | PFloat (q : Q)
  | PStr (s : string).

(** The exceptions the embedded code can raise. *)
Inductive exn : Type :=
  | KeyError
  | TypeError
  | ValueError
  | AttributeError.

Inductive result (A : Type) : Type :=
  | Ok (a : A)
  | Err (e : exn).
Arguments Ok {A} a.
Arguments Err {A} e.

(** [d[k]] on a dict: [KeyError] when the key is missing. *)
Definition subscript {A} (o : option A) : result A :=
  match o with
  | Some a => Ok a
  | None => Err KeyError
  end.

(** The numeric value of an [int] or [float]. *)
Definition num_of (v : pyval) : option Q :=
  match v with
  | PInt z => Some (inject_Z z)
  | PFloat q => Some q
  | _ => None
  end.

(** [isinstance(v, (int, float))]. *)
Definition is_number (v : pyval) : bool :=
  match v with
  | PInt _ | PFloat _ => true
  | _ => false
  end.

(** Truth value of [v] in a condition. *)
Definition truthy (v : pyval) : bool :=
  match v with
  | PNone => false
  | PInt z => negb (z =? 0)
  | PFloat q => negb (Qeq_bool q 0)
  | PStr s => negb (String.eqb s "")
  end.

(** [a == b]: numbers compare by value across [int] and [float]. *)
Definition py_eq (a b : pyval) : bool :=
  match a, b with
  | PNone, PNone => true
  | PStr s, PStr t => String.eqb s t
  | PInt x, PInt y => x =? y
  | _, _ =>
      match num_of a, num_of b with
      | Some x, Some y => Qeq_bool x y
      | _, _ => false
      end
  end.

Definition py_ne (a b : pyval) : bool := negb (py_eq a b).

(** [a < b]: defined on two numbers and on two strings, [TypeError]
    otherwise. *)
Definition py_lt (a b : pyval) : result bool :=
  match num_of a, num_of b with
  | Some x, Some y => Ok (negb (Qle_bool y x))
  | _, _ =>
      match a, b with
      | PStr s, PStr t => Ok (String.ltb s t)
      | _, _ => Err TypeError
      end
  end.

Definition py_gt (a b : pyval) : result bool := py_lt b a.

(** [min(a, b)] returns [a] unless [b < a]; [max(a, b)] returns [a] unless
    [b > a]. *)
Definition py_min (a b : pyval) : result pyval :=
  match py_lt b a with
  | Ok c => Ok (if c then b else a)
  | Err e => Err e
  end.

Definition py_max (a b : pyval) : result pyval :=
  match py_gt b a with
  | Ok c => Ok (if c then b else a)
  | Err e => Err e
  end.

(** [a + b] and [a - b] on numbers: an [int] when both are, a [float]
    otherwise. On strings [+] concatenates. *)
Definition py_add (a b : pyval) : result pyval :=
  match a, b with
  | PInt x, PInt y => Ok (PInt (x + y))
  | PStr s, PStr t => Ok (PStr (String.append s t))
  | _, _ =>
      match num_of a, num_of b with
      | Some x, Some y => Ok (PFloat (Qred (x + y)%Q))
      | _, _ => Err TypeError
      end
  end.

Definition py_sub (a b : pyval) : result pyval :=
  match a, b with
  | PInt x, PInt y => Ok (PInt (x - y))
  | _, _ =>
      match num_of a, num_of b with
      | Some x, Some y => Ok (PFloat (Qred (x - y)%Q))
      | _, _ => Err TypeError
      end
  end.

(** [round(x)] with one argument: the nearest integer, a tie going to the
    even one. *)
Definition py_round (x : Q) : Z :=
  let f := Qfloor x in
  match ((x - inject_Z f) ?= (1 # 2))%Q with
  | Lt => f
  | Gt => f + 1
  | Eq => if Z.even f then f else f + 1
  end.

(** [round(x * 2) / 2] on a number. *)
Definition nearest_half (x : Q) : Q := (inject_Z (py_round (x * 2)) / 2)%Q.

(** [round(v * 2) / 2]: a float on a number; on [None] the product and on a
    [str] the rounding raises [TypeError]. *)
Definition round_half (v : pyval) : result pyval :=
  match num_of v with
  | Some x => Ok (PFloat (Qred (nearest_half x)))
  | None => Err TypeError
  end.

(** [a & b] on two ints. *)
Definition py_and (a b : pyval) : result Z :=
  match a, b with
  | PInt x, PInt y => Ok (Z.land x y)
  | _, _ => Err TypeError
  end.

(** Sequencing: an exception ends the computation. *)
Definition rbind {A B} (r : result A) (k : A -> result B) : result B :=
  match r with
  | Ok a => k a
  | Err e => Err e
  end.

End Py.
Export Py.

#[global] Instance result_ret : MRet result := @Ok.
#[global] Instance result_bind : MBind result :=
  fun A B k r => rbind r k.

(** ** Imported names

    The source imports its dictionary keys from other modules.  Only their
    being pairwise distinct matters here, so each family of keys is an
    enumeration whose constructors carry the names of the source. *)

(** Keys of an entity's attribute mapping and of a service call's
    parameters ([homeassistant.const],
    [homeassistant.components.climate.const]). *)
Inductive attr : Type :=
  | ATTR_CURRENT_HUMIDITY
  | ATTR_CURRENT_TEMPERATURE
  | ATTR_HUMIDITY
  | ATTR_HVAC_ACTION
  | ATTR_HVAC_MODE
  | ATTR_MAX_TEMP
  | ATTR_MIN_HUMIDITY
  | ATTR_MIN_TEMP
  | ATTR_TARGET_TEMP_HIGH
  | ATTR_TARGET_TEMP_LOW
  | ATTR_ENTITY_ID
  | ATTR_SUPPORTED_FEATURES
  | ATTR_TEMPERATURE.

(** Names of the HomeKit characteristics ([.const]). *)
Inductive char_id : Type :=
  | CHAR_COOLING_THRESHOLD_TEMPERATURE
  | CHAR_CURRENT_HEATING_COOLING
  | CHAR_CURRENT_HUMIDITY
  | CHAR_CURRENT_TEMPERATURE
  | CHAR_HEATING_THRESHOLD_TEMPERATURE
  | CHAR_TARGET_HEATING_COOLING
  | CHAR_TARGET_HUMIDITY
  | CHAR_TARGET_TEMPERATURE
  | CHAR_TEMP_DISPLAY_UNITS.

(** Domains and services of the outbound calls. *)
Inductive domain_name : Type :=
  | DOMAIN_CLIMATE
  | DOMAIN_WATER_HEATER.

Inductive service_name : Type :=
  | SERVICE_SET_HUMIDITY
  | SERVICE_SET_HVAC_MODE_THERMOSTAT
  | SERVICE_SET_TEMPERATURE_THERMOSTAT
  | SERVICE_SET_TEMPERATURE_WATER_HEATER.

#[global] Instance attr_eq_dec : EqDecision attr.
Proof. solve_decision. Defined.

#[global] Instance char_id_eq_dec : EqDecision char_id.
Proof. solve_decision. Defined.

#[global] Instance attr_finite : Finite attr.
Proof.
  refine {| enum :=
    [ ATTR_CURRENT_HUMIDITY; ATTR_CURRENT_TEMPERATURE; ATTR_HUMIDITY;
      ATTR_HVAC_ACTION; ATTR_HVAC_MODE; ATTR_MAX_TEMP; ATTR_MIN_HUMIDITY;
      ATTR_MIN_TEMP; ATTR_TARGET_TEMP_HIGH; ATTR_TARGET_TEMP_LOW;
      ATTR_ENTITY_ID; ATTR_SUPPORTED_FEATURES; ATTR_TEMPERATURE ] |}.
  - apply NoDup_ListNoDup. repeat constructor; simpl; intuition discriminate.
  - intros []; apply list_elem_of_In; simpl; tauto.
Defined.

#[global] Instance char_id_finite : Finite char_id.
Proof.
  refine {| enum :=
    [ CHAR_COOLING_THRESHOLD_TEMPERATURE; CHAR_CURRENT_HEATING_COOLING;
      CHAR_CURRENT_HUMIDITY; CHAR_CURRENT_TEMPERATURE;
      CHAR_HEATING_THRESHOLD_TEMPERATURE; CHAR_TARGET_HEATING_COOLING;
      CHAR_TARGET_HUMIDITY; CHAR_TARGET_TEMPERATURE;
      CHAR_TEMP_DISPLAY_UNITS ] |}.
  - apply NoDup_ListNoDup. repeat constructor; simpl; intuition discriminate.
  - intros []; apply list_elem_of_In; simpl; tauto.
Defined.

(** Modelled from the spec: the hvac modes of
    [homeassistant.components.climate.const], which the source imports; the
    spec names them off, heat, cool, auto, heat_cool, dry and fan_only. *)
Definition HVAC_MODE_OFF : string := "off".
Definition HVAC_MODE_HEAT : string := "heat".
Definition HVAC_MODE_COOL : string := "cool".
Definition HVAC_MODE_AUTO : string := "auto".
Definition HVAC_MODE_HEAT_COOL : string := "heat_cool".
Definition HVAC_MODE_DRY : string := "dry".
Definition HVAC_MODE_FAN_ONLY : string := "fan_only".

(** Modelled from the spec: the hvac actions of
    [homeassistant.components.climate.const], which the source imports; the
    spec's action table names them off, idle, heat, cool, dry and fan. *)
Definition CURRENT_HVAC_OFF : string := "off".
Definition CURRENT_HVAC_IDLE : string := "idle".
Definition CURRENT_HVAC_HEAT : string := "heat".
Definition CURRENT_HVAC_COOL : string := "cool".
Definition CURRENT_HVAC_DRY : string := "dry".
Definition CURRENT_HVAC_FAN : string := "fan".

(** Modelled from the spec: the temperature units of [homeassistant.const],
    which the source imports; the spec's unit table is Celsius = 0,
    Fahrenheit = 1. *)
Definition TEMP_CELSIUS : string := "Celsius".
Definition TEMP_FAHRENHEIT : string := "Fahrenheit".

(** ** Module-level tables *)

(** A dict literal, as its items in insertion order. *)
Fixpoint dict_get {V} (k : string) (d : list (string * V)) : option V :=
  match d with
  | [] => None
  | (k', v) :: d' => if String.eqb k k' then Some v else dict_get k d'
  end.

Definition HC_HOMEKIT_VALID_MODES_WATER_HEATER : list (string * Z) :=
  [("Heat", 1)].
Definition UNIT_HASS_TO_HOMEKIT : list (string * Z) :=
  [(TEMP_CELSIUS, 0); (TEMP_FAHRENHEIT, 1)].

Definition HC_HEAT_COOL_OFF : Z := 0.
Definition HC_HEAT_COOL_HEAT : Z := 1.
Definition HC_HEAT_COOL_COOL : Z := 2.
Definition HC_HEAT_COOL_AUTO : Z := 3.

Definition HC_MIN_TEMP : Z := 10.
Definition HC_MAX_TEMP : Z := 38.

Definition HC_HASS_TO_HOMEKIT : list (string * Z) :=
  [ (HVAC_MODE_OFF, HC_HEAT_COOL_OFF);
    (HVAC_MODE_HEAT, HC_HEAT_COOL_HEAT);
    (HVAC_MODE_COOL, HC_HEAT_COOL_COOL);
    (HVAC_MODE_AUTO, HC_HEAT_COOL_AUTO);
    (HVAC_MODE_HEAT_COOL, HC_HEAT_COOL_AUTO);
    (HVAC_MODE_DRY, HC_HEAT_COOL_COOL);
    (HVAC_MODE_FAN_ONLY, HC_HEAT_COOL_COOL) ].

(** [{c: s for s, c in items if keep s}]: the items are visited in
    insertion order and a later item replaces an earlier one with the same
    key. *)
Definition reverse_dict (keep : string -> bool) (items : list (string * Z))
  : gmap Z string :=
  foldl (fun m '(s, c) => if keep s then <[c := s]> m else m) ∅ items.

Definition HC_HOMEKIT_TO_HASS : gmap Z string :=
  reverse_dict (fun _ => true) HC_HASS_TO_HOMEKIT.

Definition HC_HASS_TO_HOMEKIT_ACTION : list (string * Z) :=
  [ (CURRENT_HVAC_OFF, HC_HEAT_COOL_OFF);
    (CURRENT_HVAC_IDLE, HC_HEAT_COOL_OFF);
    (CURRENT_HVAC_HEAT, HC_HEAT_COOL_HEAT);
    (CURRENT_HVAC_COOL, HC_HEAT_COOL_COOL);
    (CURRENT_HVAC_DRY, HC_HEAT_COOL_COOL);
    (CURRENT_HVAC_FAN, HC_HEAT_COOL_COOL) ].

Definition HEAT_COOL_DEADBAND : Z := 5.

(** [s in hc_modes] on a list or tuple of strings. *)
Definition str_in (s : string) (l : list string) : bool :=
  existsb (String.eqb s) l.

(** The modes assumed by [Thermostat.__init__] when the entity has no
    [hvac_modes] attribute yet. *)
Definition default_hc_modes : list string :=
  [HVAC_MODE_HEAT; HVAC_MODE_COOL; HVAC_MODE_HEAT_COOL; HVAC_MODE_OFF].

(** The filter of the comprehension that builds [self.hc_homekit_to_hass]
    in [Thermostat.__init__]. *)
Definition mode_available (hc_modes : list string) (s : string) : bool :=
  str_in s hc_modes
  && negb ((String.eqb s HVAC_MODE_AUTO && str_in HVAC_MODE_HEAT_COOL hc_modes)
           || (str_in s [HVAC_MODE_DRY; HVAC_MODE_FAN_ONLY]
               && str_in HVAC_MODE_COOL hc_modes)).

(** [self.hc_homekit_to_hass] as [Thermostat.__init__] builds it from the
    entity's [hvac_modes] attribute ([None] when absent). *)
Definition init_hc_homekit_to_hass (hvac_modes : option (list string))
  : gmap Z string :=
  let hc_modes :=
    match hvac_modes with
    | None => default_hc_modes
    | Some l => l
    end in
  reverse_dict (mode_available hc_modes) HC_HASS_TO_HOMEKIT.

(** ** Entity snapshots, characteristics and outbound calls *)

(** A state object of the platform's state store: the state string and the
    attribute mapping.  The list-valued [hvac_modes] attribute, read only by
    [Thermostat.__init__], is a field of its own. *)
Record State : Type := {
  state : string;
  attributes : gmap attr pyval;
  hvac_modes : option (list string);
}.

(** [attributes.get(key)] and [attributes.get(key, default)]. *)
Definition attr_get (st : State) (key : attr) : pyval :=
  default PNone (attributes st !! key).
Definition attr_get_default (st : State) (key : attr) (d : pyval) : pyval :=
  default d (attributes st !! key).

(** A characteristic of the accessory's service, as far as the source uses
    it: a cell with a current value.  [set_value] stores the value it is
    given; the validation the hosting library performs on it is not
    modelled. *)
Record Char : Type := { value : pyval }.

(** One [set_value] call: the characteristic and the value written. *)
Definition write : Type := char_id * pyval.

(** One entry of the description of a service call: the characteristic
    changed and its new value, or the bare value of a humidity or water
    heater call. *)
Inductive event : Type :=
  | EvChar (c : char_id) (v : pyval)
  | EvValue (v : pyval).

(** A [call_service(domain, service, params, description)] request. *)
Record service_call : Type := {
  call_domain : domain_name;
  call_service : service_name;
  call_params : gmap attr pyval;
  call_description : list event;
}.

(** ** Methods that mutate the accessory

    A method that writes characteristics is a computation over the
    accessory object and the log of the [set_value] calls made so far; an
    exception leaves the object as it was when it was raised. *)

Definition M (T A : Type) : Type :=
  T * list write -> result A * (T * list write).

#[global] Instance M_ret {T} : MRet (M T) := fun A a σ => (Ok a, σ).
#[global] Instance M_bind {T} : MBind (M T) := fun A B k m σ =>
  match m σ with
  | (Ok a, σ') => k a σ'
  | (Err e, σ') => (Err e, σ')
  end.

Definition lift {T A} (r : result A) : M T A := fun σ => (r, σ).

(** Run a method on an object with an empty log. *)
Definition run {T A} (m : M T A) (self : T) : result A * (T * list write) :=
  m (self, []).

(** The object and the writes a run leaves behind. *)
Definition obj_after {T A} (r : result A * (T * list write)) : T := r.2.1.
Definition writes_of {T A} (r : result A * (T * list write)) : list write :=
  r.2.2.

(** An attribute of the object that holds a characteristic or [None]. *)
Record char_ref (T : Type) : Type := {
  ref_id : char_id;
  ref_get : T -> option Char;
  ref_set : Char -> T -> T;
}.
Arguments ref_id {T} _.
Arguments ref_get {T} _ _.
Arguments ref_set {T} _ _ _.

(** [self.char.value]: [AttributeError] when the attribute is [None]. *)
Definition char_value {T} (r : char_ref T) : M T pyval := fun σ =>
  match ref_get r σ.1 with
  | Some c => (Ok (value c), σ)
  | None => (Err AttributeError, σ)
  end.

(** [self.char.set_value(v)]. *)
Definition set_value {T} (r : char_ref T) (v : pyval) : M T unit := fun σ =>
  match ref_get r σ.1 with
  | Some _ => (Ok tt, (ref_set r {| value := v |} σ.1, (σ.2 ++ [(ref_id r, v)])%list))
  | None => (Err AttributeError, σ)
  end.

(** [if self.char:] a characteristic object is true, [None] is false. *)
Definition char_present {T} (r : char_ref T) : M T bool := fun σ =>
  (Ok (bool_decide (is_Some (ref_get r σ.1))), σ).

Definition get_self {T} : M T T := fun σ => (Ok σ.1, σ).

(** [if c: body]. *)
Definition when {T} (c : bool) (body : M T unit) : M T unit :=
  if c then body else mret tt.

(** ** The Thermostat accessory *)

Record Thermostat : Type := {
  entity_id : string;
  _unit : string;
  chars : list char_id;
  hc_homekit_to_hass : gmap Z string;
  char_current_heat_cool : Char;
  char_target_heat_cool : Char;
  char_current_temp : Char;
  char_target_temp : Char;
  char_display_units : Char;
  char_cooling_thresh_temp : option Char;
  char_heating_thresh_temp : option Char;
  char_target_humidity : option Char;
  char_current_humidity : option Char;
}.

Module TRef.

Definition current_heat_cool : char_ref Thermostat := {|
  ref_id := CHAR_CURRENT_HEATING_COOLING;
  ref_get t := Some (char_current_heat_cool t);
  ref_set c t :=
    {| entity_id := entity_id t; _unit := _unit t; chars := chars t;
       hc_homekit_to_hass := hc_homekit_to_hass t;
       char_current_heat_cool := c;
       char_target_heat_cool := char_target_heat_cool t;
       char_current_temp := char_current_temp t;
       char_target_temp := char_target_temp t;
       char_display_units := char_display_units t;
       char_cooling_thresh_temp := char_cooling_thresh_temp t;
       char_heating_thresh_temp := char_heating_thresh_temp t;
       char_target_humidity := char_target_humidity t;
       char_current_humidity := char_current_humidity t |} |}.

Definition target_heat_cool : char_ref Thermostat := {|
  ref_id := CHAR_TARGET_HEATING_COOLING;
  ref_get t := Some (char_target_heat_cool t);
  ref_set c t :=
    {| entity_id := entity_id t; _unit := _unit t; chars := chars t;
       hc_homekit_to_hass := hc_homekit_to_hass t;
       char_current_heat_cool := char_current_heat_cool t;
       char_target_heat_cool := c;
       char_current_temp := char_current_temp t;
       char_target_temp := char_target_temp t;
       char_display_units := char_display_units t;
       char_cooling_thresh_temp := char_cooling_thresh_temp t;
       char_heating_thresh_temp := char_heating_thresh_temp t;
       char_target_humidity := char_target_humidity t;
       char_current_humidity := char_current_humidity t |} |}.

Definition current_temp : char_ref Thermostat := {|
  ref_id := CHAR_CURRENT_TEMPERATURE;
  ref_get t := Some (char_current_temp t);
  ref_set c t :=
    {| entity_id := entity_id t; _unit := _unit t; chars := chars t;
       hc_homekit_to_hass := hc_homekit_to_hass t;
       char_current_heat_cool := char_current_heat_cool t;
       char_target_heat_cool := char_target_heat_cool t;
       char_current_temp := c;
       char_target_temp := char_target_temp t;
       char_display_units := char_display_units t;
       char_cooling_thresh_temp := char_cooling_thresh_temp t;
       char_heating_thresh_temp := char_heating_thresh_temp t;
       char_target_humidity := char_target_humidity t;
       char_current_humidity := char_current_humidity t |} |}.

Definition target_temp : char_ref Thermostat := {|
  ref_id := CHAR_TARGET_TEMPERATURE;
  ref_get t := Some (char_target_temp t);
  ref_set c t :=
    {| entity_id := entity_id t; _unit := _unit t; chars := chars t;
       hc_homekit_to_hass := hc_homekit_to_hass t;
       char_current_heat_cool := char_current_heat_cool t;
       char_target_heat_cool := char_target_heat_cool t;
       char_current_temp := char_current_temp t;
       char_target_temp := c;
       char_display_units := char_display_units t;
       char_cooling_thresh_temp := char_cooling_thresh_temp t;
       char_heating_thresh_temp := char_heating_thresh_temp t;
       char_target_humidity := char_target_humidity t;
       char_current_humidity := char_current_humidity t |} |}.

Definition display_units : char_ref Thermostat := {|
  ref_id := CHAR_TEMP_DISPLAY_UNITS;
  ref_get t := Some (char_display_units t);
  ref_set c t :=
    {| entity_id := entity_id t; _unit := _unit t; chars := chars t;
       hc_homekit_to_hass := hc_homekit_to_hass t;
       char_current_heat_cool := char_current_heat_cool t;
       char_target_heat_cool := char_target_heat_cool t;
       char_current_temp := char_current_temp t;
       char_target_temp := char_target_temp t;
       char_display_units := c;
       char_cooling_thresh_temp := char_cooling_thresh_temp t;
       char_heating_thresh_temp := char_heating_thresh_temp t;
       char_target_humidity := char_target_humidity t;
       char_current_humidity := char_current_humidity t |} |}.

Definition cooling_thresh_temp : char_ref Thermostat := {|
  ref_id := CHAR_COOLING_THRESHOLD_TEMPERATURE;
  ref_get t := char_cooling_thresh_temp t;
  ref_set c t :=
    {| entity_id := entity_id t; _unit := _unit t; chars := chars t;
       hc_homekit_to_hass := hc_homekit_to_hass t;
       char_current_heat_cool := char_current_heat_cool t;
       char_target_heat_cool := char_target_heat_cool t;
       char_current_temp := char_current_temp t;
       char_target_temp := char_target_temp t;
       char_display_units := char_display_units t;
       char_cooling_thresh_temp := Some c;
       char_heating_thresh_temp := char_heating_thresh_temp t;
       char_target_humidity := char_target_humidity t;
       char_current_humidity := char_current_humidity t |} |}.

Definition heating_thresh_temp : char_ref Thermostat := {|
  ref_id := CHAR_HEATING_THRESHOLD_TEMPERATURE;
  ref_get t := char_heating_thresh_temp t;
  ref_set c t :=
    {| entity_id := entity_id t; _unit := _unit t; chars := chars t;
       hc_homekit_to_hass := hc_homekit_to_hass t;
       char_current_heat_cool := char_current_heat_cool t;
       char_target_heat_cool := char_target_heat_cool t;
       char_current_temp := char_current_temp t;
       char_target_temp := char_target_temp t;
       char_display_units := char_display_units t;
       char_cooling_thresh_temp := char_cooling_thresh_temp t;
       char_heating_thresh_temp := Some c;
       char_target_humidity := char_target_humidity t;
       char_current_humidity := char_current_humidity t |} |}.

Definition target_humidity : char_ref Thermostat := {|
  ref_id := CHAR_TARGET_HUMIDITY;
  ref_get t := char_target_humidity t;
  ref_set c t :=
    {| entity_id := entity_id t; _unit := _unit t; chars := chars t;
       hc_homekit_to_hass := hc_homekit_to_hass t;
       char_current_heat_cool := char_current_heat_cool t;
       char_target_heat_cool := char_target_heat_cool t;
       char_current_temp := char_current_temp t;
       char_target_temp := char_target_temp t;
       char_display_units := char_display_units t;
       char_cooling_thresh_temp := char_cooling_thresh_temp t;
       char_heating_thresh_temp := char_heating_thresh_temp t;
       char_target_humidity := Some c;
       char_current_humidity := char_current_humidity t |} |}.

Definition current_humidity : char_ref Thermostat := {|
  ref_id := CHAR_CURRENT_HUMIDITY;
  ref_get t := char_current_humidity t;
  ref_set c t :=
    {| entity_id := entity_id t; _unit := _unit t; chars := chars t;
       hc_homekit_to_hass := hc_homekit_to_hass t;
       char_current_heat_cool := char_current_heat_cool t;
       char_target_heat_cool := char_target_heat_cool t;
       char_current_temp := char_current_temp t;
       char_target_temp := char_target_temp t;
       char_display_units := char_display_units t;
       char_cooling_thresh_temp := char_cooling_thresh_temp t;
       char_heating_thresh_temp := char_heating_thresh_temp t;
       char_target_humidity := char_target_humidity t;
       char_current_humidity := Some c |} |}.

End TRef.

(** ** The WaterHeater accessory

    Its attributes have the names of the thermostat's in the source; here
    they carry the prefix [wh_]. *)

Record WaterHeater : Type := {
  wh_entity_id : string;
  wh_unit : string;
  wh_char_current_heat_cool : Char;
  wh_char_target_heat_cool : Char;
  wh_char_current_temp : Char;
  wh_char_target_temp : Char;
  wh_char_display_units : Char;
}.

Definition wh_target_heat_cool : char_ref WaterHeater := {|
  ref_id := CHAR_TARGET_HEATING_COOLING;
  ref_get w := Some (wh_char_target_heat_cool w);
  ref_set c w :=
    {| wh_entity_id := wh_entity_id w; wh_unit := wh_unit w;
       wh_char_current_heat_cool := wh_char_current_heat_cool w;
       wh_char_target_heat_cool := c;
       wh_char_current_temp := wh_char_current_temp w;
       wh_char_target_temp := wh_char_target_temp w;
       wh_char_display_units := wh_char_display_units w |} |}.

Definition wh_current_temp : char_ref WaterHeater := {|
  ref_id := CHAR_CURRENT_TEMPERATURE;
  ref_get w := Some (wh_char_current_temp w);
  ref_set c w :=
    {| wh_entity_id := wh_entity_id w; wh_unit := wh_unit w;
       wh_char_current_heat_cool := wh_char_current_heat_cool w;
       wh_char_target_heat_cool := wh_char_target_heat_cool w;
       wh_char_current_temp := c;
       wh_char_target_temp := wh_char_target_temp w;
       wh_char_display_units := wh_char_display_units w |} |}.

Definition wh_target_temp : char_ref WaterHeater := {|
  ref_id := CHAR_TARGET_TEMPERATURE;
  ref_get w := Some (wh_char_target_temp w);
  ref_set c w :=
    {| wh_entity_id := wh_entity_id w; wh_unit := wh_unit w;
       wh_char_current_heat_cool := wh_char_current_heat_cool w;
       wh_char_target_heat_cool := wh_char_target_heat_cool w;
       wh_char_current_temp := wh_char_current_temp w;
       wh_char_target_temp := c;
       wh_char_display_units := wh_char_display_units w |} |}.

Definition wh_display_units : char_ref WaterHeater := {|
  ref_id := CHAR_TEMP_DISPLAY_UNITS;
  ref_get w := Some (wh_char_display_units w);
  ref_set c w :=
    {| wh_entity_id := wh_entity_id w; wh_unit := wh_unit w;
       wh_char_current_heat_cool := wh_char_current_heat_cool w;
       wh_char_target_heat_cool := wh_char_target_heat_cool w;
       wh_char_current_temp := wh_char_current_temp w;
       wh_char_target_temp := wh_char_target_temp w;
       wh_char_display_units := c |} |}.

(** The characteristic object an attribute of the thermostat holds. *)
Definition char_of (c : char_id) (t : Thermostat) : option Char :=
  match c with
  | CHAR_COOLING_THRESHOLD_TEMPERATURE => char_cooling_thresh_temp t
  | CHAR_CURRENT_HEATING_COOLING => Some (char_current_heat_cool t)
  | CHAR_CURRENT_HUMIDITY => char_current_humidity t
  | CHAR_CURRENT_TEMPERATURE => Some (char_current_temp t)
  | CHAR_HEATING_THRESHOLD_TEMPERATURE => char_heating_thresh_temp t
  | CHAR_TARGET_HEATING_COOLING => Some (char_target_heat_cool t)
  | CHAR_TARGET_HUMIDITY => char_target_humidity t
  | CHAR_TARGET_TEMPERATURE => Some (char_target_temp t)
  | CHAR_TEMP_DISPLAY_UNITS => Some (char_display_units t)
  end.


(** A computation whose outcome does not depend on the writes already
    logged: it only appends its own. *)
Definition local {T A} (m : M T A) : Prop :=
  forall (s : T) (w : list write),
    m (s, w) = ((m (s, [])).1, ((m (s, [])).2.1, (w ++ (m (s, [])).2.2)%list)).



(** The optional characteristics are the ones named in [self.chars], and
    the two thresholds come together. *)
Definition well_formed (s : Thermostat) : Prop :=
  (forall c : char_id,
     c ∈ [CHAR_COOLING_THRESHOLD_TEMPERATURE; CHAR_HEATING_THRESHOLD_TEMPERATURE;
          CHAR_TARGET_HUMIDITY; CHAR_CURRENT_HUMIDITY] ->
     c ∈ chars s <-> is_Some (char_of c s))
  /\ (is_Some (char_cooling_thresh_temp s)
      <-> is_Some (char_heating_thresh_temp s)).

(** A method body made of blocks run one after the other. *)
Fixpoint seq_all {T} (blocks : list (M T unit)) : M T unit :=
  match blocks with
  | [] => mret tt
  | b :: rest =>
      match rest with
      | [] => b
      | _ :: _ => b;; seq_all rest
      end
  end.

(** What a block of [Thermostat.update_state] that is in charge of the
    characteristic [c] does to the object and to the log. *)
Record block_spec (c : char_id) (b : M Thermostat unit) : Prop := {
  block_local : local b;
  block_config : forall s : Thermostat,
    let s' := obj_after (run b s) in
    entity_id s' = entity_id s /\ _unit s' = _unit s /\ chars s' = chars s
    /\ hc_homekit_to_hass s' = hc_homekit_to_hass s;
  block_frame : forall (s : Thermostat) (c' : char_id),
    c' <> c -> char_of c' (obj_after (run b s)) = char_of c' s;
  block_own : forall s : Thermostat,
    is_Some (char_of c (obj_after (run b s))) <-> is_Some (char_of c s);
  block_writes : forall (s : Thermostat) (x : write),
    x ∈ writes_of (run b s) ->
    writes_of (run b s) = [x] /\ x.1 = c
    /\ char_of c (obj_after (run b s)) = Some {| value := x.2 |};
  block_change : forall (s : Thermostat) (x : write),
    x ∈ writes_of (run b s) ->
    c <> CHAR_COOLING_THRESHOLD_TEMPERATURE ->
    exists old : Char, char_of c s = Some old /\ py_ne (value old) x.2 = true;
}.

(** What a run of several blocks, in charge of the characteristics [ids],
    guarantees whatever its outcome. *)
Record seq_spec (ids : list char_id) (m : M Thermostat unit) : Prop := {
  seq_config : forall s : Thermostat,
    let s' := obj_after (run m s) in
    entity_id s' = entity_id s /\ _unit s' = _unit s /\ chars s' = chars s
    /\ hc_homekit_to_hass s' = hc_homekit_to_hass s;
  seq_frame : forall (s : Thermostat) (c' : char_id),
    c' ∉ ids -> char_of c' (obj_after (run m s)) = char_of c' s;
  seq_present : forall (s : Thermostat) (c : char_id),
    is_Some (char_of c (obj_after (run m s))) <-> is_Some (char_of c s);
  seq_once : forall s : Thermostat, NoDup (writes_of (run m s)).*1;
  seq_writes : forall (s : Thermostat) (x : write),
    x ∈ writes_of (run m s) ->
    x.1 ∈ ids
    /\ char_of x.1 (obj_after (run m s)) = Some {| value := x.2 |}
    /\ (x.1 <> CHAR_COOLING_THRESHOLD_TEMPERATURE ->
        exists old : Char,
          char_of x.1 s = Some old /\ py_ne (value old) x.2 = true);
}.



(** [key in d] and [d[key]] on a dict with string keys, for a key that is
    any Python value. *)
Definition dict_has {V} (k : string) (d : list (string * V)) : bool :=
  bool_decide (is_Some (dict_get k d)).

Definition dict_getitem {V} (d : list (string * V)) (k : pyval) : result V :=
  match k with
  | PStr s => subscript (dict_get s d)
  | _ => Err KeyError
  end.

(** [d[key]] on a dict with int keys: a float key finds the int it equals. *)
Definition int_key (k : pyval) : option Z :=
  match k with
  | PInt z => Some z
  | PFloat q => if Qeq_bool q (inject_Z (Qfloor q)) then Some (Qfloor q) else None
  | _ => None
  end.

Definition int_dict_getitem {V} (d : gmap Z V) (k : pyval) : result V :=
  match int_key k with
  | Some z => subscript (d !! z)
  | None => Err KeyError
  end.

(** [self.char.value] outside a mutating method. *)
Definition value_of (c : option Char) : result pyval :=
  match c with
  | Some c => Ok (value c)
  | None => Err AttributeError
  end.

(** ** Unit conversions of the spec

    Modelled from the spec: [to_protocol_unit] and [to_domain_unit], the
    unit conversion helpers, which are not part of the source file.  The spec
    describes them as scale and offset conversions consistent with the
    configured unit that pass [None] through.  They instantiate the
    conversions the accessories are parameterised by wherever a statement is
    evaluated on a concrete input. *)
Definition to_protocol_unit (v : pyval) (unit : string) : result pyval :=
  match v with
  | PNone => Ok PNone
  | _ =>
      match num_of v with
      | Some q =>
          if String.eqb unit TEMP_CELSIUS then Ok v
          else if String.eqb unit TEMP_FAHRENHEIT
          then Ok (PFloat (Qred ((q - 32) * 5 / 9)%Q))
          else Err ValueError
      | None => Err TypeError
      end
  end.

Definition to_domain_unit (v : pyval) (unit : string) : result pyval :=
  match v with
  | PNone => Ok PNone
  | _ =>
      match num_of v with
      | Some q =>
          if String.eqb unit TEMP_CELSIUS then Ok v
          else if String.eqb unit TEMP_FAHRENHEIT
          then Ok (PFloat (Qred (q * 9 / 5 + 32)%Q))
          else Err ValueError
      | None => Err TypeError
      end
  end.

(** A snapshot of a climate entity in state [st] with low 18 and high 24
    and the feature bits [features]; with state heat_cool and the range
    feature it is the snapshot of the spec's end-to-end example. *)
Definition range_snapshot (st : string) (features : Z) : State :=
  {| state := st;
     attributes :=
       <[ATTR_TARGET_TEMP_LOW := PInt 18]>
         (<[ATTR_TARGET_TEMP_HIGH := PInt 24]>
            {[ATTR_SUPPORTED_FEATURES := PInt features]});
     hvac_modes := Some [HVAC_MODE_HEAT; HVAC_MODE_COOL; HVAC_MODE_HEAT_COOL;
                         HVAC_MODE_OFF] |}.

(** A thermostat for that entity, with the values [Thermostat.__init__]
    gives its characteristics before the first [update_state]: the two
    threshold characteristics exist, the humidity ones do not.  The target
    mode starts at Off. *)
Definition range_thermostat : Thermostat :=
  {| entity_id := "climate.test";
     _unit := TEMP_CELSIUS;
     chars := [CHAR_COOLING_THRESHOLD_TEMPERATURE; CHAR_HEATING_THRESHOLD_TEMPERATURE];
     hc_homekit_to_hass :=
       init_hc_homekit_to_hass (hvac_modes (range_snapshot HVAC_MODE_HEAT_COOL 2));
     char_current_heat_cool := {| value := PInt 0 |};
     char_target_heat_cool := {| value := PInt 0 |};
     char_current_temp := {| value := PFloat 21 |};
     char_target_temp := {| value := PFloat 21 |};
     char_display_units := {| value := PInt 0 |};
     char_cooling_thresh_temp := Some {| value := PFloat 23 |};
     char_heating_thresh_temp := Some {| value := PFloat 19 |};
     char_target_humidity := None;
     char_current_humidity := None |}.

(** A thermostat for an entity with a single setpoint: no threshold and no
    humidity characteristic. *)
Definition setpoint_thermostat : Thermostat :=
  {| entity_id := "climate.test";
     _unit := TEMP_CELSIUS;
     chars := [];
     hc_homekit_to_hass :=
       init_hc_homekit_to_hass (Some [HVAC_MODE_HEAT; HVAC_MODE_OFF]);
     char_current_heat_cool := {| value := PInt 0 |};
     char_target_heat_cool := {| value := PInt 0 |};
     char_current_temp := {| value := PFloat 21 |};
     char_target_temp := {| value := PFloat 21 |};
     char_display_units := {| value := PInt 0 |};
     char_cooling_thresh_temp := None;
     char_heating_thresh_temp := None;
     char_target_humidity := None;
     char_current_humidity := None |}.


(** A snapshot of a water heater in state [st] with target temperature
    [temperature]. *)
Definition water_heater_snapshot (st : string) (temperature : pyval) : State :=
  {| state := st;
     attributes := {[ATTR_TEMPERATURE := temperature]};
     hvac_modes := None |}.

(** The water heater that [WaterHeater.__init__] builds from
    [water_heater_snapshot "eco" 55] in Celsius. *)
Definition eco_water_heater : WaterHeater :=
  {| wh_entity_id := "water_heater.test";
     wh_unit := TEMP_CELSIUS;
     wh_char_current_heat_cool := {| value := PInt 1 |};
     wh_char_target_heat_cool := {| value := PInt 1 |};
     wh_char_current_temp := {| value := PFloat 50 |};
     wh_char_target_temp := {| value := PInt 55 |};
     wh_char_display_units := {| value := PInt 0 |} |}.

Section Accessories.

(** The unit conversions of [.util], which the source imports:
    [temperature_to_homekit(temperature, unit)] and
    [temperature_to_states(temperature, unit)]. *)
Variable temperature_to_homekit : pyval -> string -> result pyval.
Variable temperature_to_states : pyval -> string -> result pyval.

(** Constants of [homeassistant.components.climate.const] and of [.const],
    which the source imports. *)
Variable DEFAULT_MIN_TEMP : pyval.
Variable DEFAULT_MAX_TEMP : pyval.
Variable DEFAULT_MIN_TEMP_WATER_HEATER : pyval.
Variable DEFAULT_MAX_TEMP_WATER_HEATER : pyval.
Variable SUPPORT_TARGET_TEMPERATURE : Z.
Variable SUPPORT_TARGET_TEMPERATURE_RANGE : Z.
Variable SUPPORT_TARGET_HUMIDITY : Z.

(** [features & flag] as a condition. *)
Definition has_feature (features : pyval) (flag : Z) : result bool :=
  f ← py_and features (PInt flag);
  Ok (negb (f =? 0)).

(** *** [Thermostat.get_temperature_range]

    [hass_state] is what [self.hass.states.get(self.entity_id)] returns. *)
Definition get_temperature_range (self : Thermostat) (hass_state : State)
  : result (pyval * pyval) :=
  let max_temp := attr_get hass_state ATTR_MAX_TEMP in
  max_temp ←
    (if truthy max_temp then temperature_to_homekit max_temp (_unit self)
     else Ok DEFAULT_MAX_TEMP);
  max_temp ← round_half max_temp;
  let min_temp := attr_get hass_state ATTR_MIN_TEMP in
  min_temp ←
    (if truthy min_temp then temperature_to_homekit min_temp (_unit self)
     else Ok DEFAULT_MIN_TEMP);
  min_temp ← round_half min_temp;
  Ok (min_temp, max_temp).

(** The value a bound of the range is rounded from: the converted attribute
    when it is set and true, the default otherwise. *)
Definition range_bound (self : Thermostat) (hass_state : State) (key : attr)
    (dflt : pyval) : result pyval :=
  let temp := attr_get hass_state key in
  if truthy temp then temperature_to_homekit temp (_unit self) else Ok dflt.

(** The range [Thermostat.__init__] declares for the temperature
    characteristics: [(hc_min_temp, hc_max_temp)]. *)
Definition init_temperature_range (self : Thermostat) (hass_state : State)
  : result (pyval * pyval) :=
  '(min_temp, max_temp) ← get_temperature_range self hass_state;
  hc_min_temp ← py_max min_temp (PInt HC_MIN_TEMP);
  let hc_max_temp := max_temp in
  Ok (hc_min_temp, hc_max_temp).

(** *** [Thermostat.set_target_humidity] *)
Definition set_target_humidity (self : Thermostat) (v : pyval) : service_call :=
  {| call_domain := DOMAIN_CLIMATE;
     call_service := SERVICE_SET_HUMIDITY;
     call_params :=
       <[ATTR_HUMIDITY := v]> {[ATTR_ENTITY_ID := PStr (entity_id self)]};
     call_description := [EvValue v] |}.

(** *** [Thermostat._set_chars]

    The result is the list of the service calls issued, in order. *)
Definition _set_chars (self : Thermostat) (hass_state : State)
    (char_values : gmap char_id pyval) : result (list service_call) :=
  let events : list event := [] in
  let params : gmap attr pyval := ∅ in
  let service : option service_name := None in
  let features := attr_get_default hass_state ATTR_SUPPORTED_FEATURES (PInt 0) in
  let hvac_mode := state hass_state in
  homekit_hvac_mode ← subscript (dict_get hvac_mode HC_HASS_TO_HOMEKIT);
  '(service, params, events) ←
    match char_values !! CHAR_TARGET_HEATING_COOLING with
    | Some v =>
        (* Homekit will reset the mode when VIEWING the temp *)
        if py_ne v (PInt homekit_hvac_mode) then
          hass_value ← int_dict_getitem (hc_homekit_to_hass self) v;
          Ok (Some SERVICE_SET_HVAC_MODE_THERMOSTAT,
              ({[ATTR_HVAC_MODE := PStr hass_value]} : gmap attr pyval),
              (events ++ [EvChar CHAR_TARGET_HEATING_COOLING v])%list)
        else Ok (service, params, events)
    | None => Ok (service, params, events)
    end;
  '(service, params, events, char_values) ←
    match char_values !! CHAR_TARGET_TEMPERATURE with
    | Some hc_target_temp =>
        single ← has_feature features SUPPORT_TARGET_TEMPERATURE;
        if (single : bool) then
          temperature ← temperature_to_states hc_target_temp (_unit self);
          Ok (Some SERVICE_SET_TEMPERATURE_THERMOSTAT,
              <[ATTR_TEMPERATURE := temperature]> params,
              (events ++ [EvChar CHAR_TARGET_TEMPERATURE hc_target_temp])%list,
              char_values)
        else
          range ← has_feature features SUPPORT_TARGET_TEMPERATURE_RANGE;
          if (range : bool) then
            let char_values :=
              if (homekit_hvac_mode =? HC_HEAT_COOL_HEAT)
                 && negb (bool_decide
                      (is_Some (char_values !! CHAR_HEATING_THRESHOLD_TEMPERATURE)))
              then <[CHAR_HEATING_THRESHOLD_TEMPERATURE := hc_target_temp]> char_values
              else char_values in
            let char_values :=
              if (homekit_hvac_mode =? HC_HEAT_COOL_COOL)
                 && negb (bool_decide
                      (is_Some (char_values !! CHAR_COOLING_THRESHOLD_TEMPERATURE)))
              then <[CHAR_COOLING_THRESHOLD_TEMPERATURE := hc_target_temp]> char_values
              else char_values in
            Ok (service, params, events, char_values)
          else Ok (service, params, events, char_values)
    | None => Ok (service, params, events, char_values)
    end;
  '(service, params, events) ←
    (if bool_decide (is_Some (char_values !! CHAR_HEATING_THRESHOLD_TEMPERATURE))
        || bool_decide (is_Some (char_values !! CHAR_COOLING_THRESHOLD_TEMPERATURE))
     then
       let service := Some SERVICE_SET_TEMPERATURE_THERMOSTAT in
       high ← value_of (char_cooling_thresh_temp self);
       low ← value_of (char_heating_thresh_temp self);
       '(min_temp, max_temp) ← get_temperature_range self hass_state;
       '(events, high, low) ←
         match char_values !! CHAR_COOLING_THRESHOLD_TEMPERATURE
         return result (list event * pyval * pyval) with
         | Some v =>
             let events :=
               (events ++ [EvChar CHAR_COOLING_THRESHOLD_TEMPERATURE v])%list in
             let high := v in
             below ← py_lt high low;
             if (below : bool) then
               low ← py_sub high (PInt HEAT_COOL_DEADBAND);
               Ok (events, high, low)
             else Ok (events, high, low)
         | None => Ok (events, high, low)
         end;
       '(events, high, low) ←
         match char_values !! CHAR_HEATING_THRESHOLD_TEMPERATURE
         return result (list event * pyval * pyval) with
         | Some v =>
             let events :=
               (events ++ [EvChar CHAR_HEATING_THRESHOLD_TEMPERATURE v])%list in
             let low := v in
             above ← py_gt low high;
             if (above : bool) then
               high ← py_add low (PInt HEAT_COOL_DEADBAND);
               Ok (events, high, low)
             else Ok (events, high, low)
         | None => Ok (events, high, low)
         end;
       high ← py_min high max_temp;
       low ← py_max low min_temp;
       states_high ← temperature_to_states high (_unit self);
       states_low ← temperature_to_states low (_unit self);
       Ok (service,
           <[ATTR_TARGET_TEMP_LOW := states_low]>
             (<[ATTR_TARGET_TEMP_HIGH := states_high]> params),
           events)
     else Ok (service, params, events));
  let calls :=
    match service with
    | Some service =>
        [ {| call_domain := DOMAIN_CLIMATE;
             call_service := service;
             call_params := <[ATTR_ENTITY_ID := PStr (entity_id self)]> params;
             call_description := events |} ]
    | None => []
    end in
  let calls :=
    match char_values !! CHAR_TARGET_HUMIDITY with
    | Some v => (calls ++ [set_target_humidity self v])%list
    | None => calls
    end in
  Ok calls.

(** *** [Thermostat.update_state]

    The method is the sequence of its commented blocks, each of them a
    definition of its own. *)

(** Update target operation mode FIRST. *)
Definition update_target_mode (new_state : State) : M Thermostat unit :=
  let hvac_mode := state new_state in
  when (truthy (PStr hvac_mode) && dict_has hvac_mode HC_HASS_TO_HOMEKIT)
    (homekit_hvac_mode ← lift (subscript (dict_get hvac_mode HC_HASS_TO_HOMEKIT));
     v ← char_value TRef.target_heat_cool;
     when (py_ne v (PInt homekit_hvac_mode))
       (set_value TRef.target_heat_cool (PInt homekit_hvac_mode))).

(** Set current operation mode for supported thermostats. *)
Definition update_current_mode (new_state : State) : M Thermostat unit :=
  let hvac_action := attr_get new_state ATTR_HVAC_ACTION in
  when (truthy hvac_action)
    (homekit_hvac_action ← lift (dict_getitem HC_HASS_TO_HOMEKIT_ACTION hvac_action);
     v ← char_value TRef.current_heat_cool;
     when (py_ne v (PInt homekit_hvac_action))
       (set_value TRef.current_heat_cool (PInt homekit_hvac_action))).

(** Update current temperature. *)
Definition update_current_temp (new_state : State) : M Thermostat unit :=
  let current_temp := attr_get new_state ATTR_CURRENT_TEMPERATURE in
  when (is_number current_temp)
    (self ← get_self;
     current_temp ← lift (temperature_to_homekit current_temp (_unit self));
     v ← char_value TRef.current_temp;
     when (py_ne v current_temp) (set_value TRef.current_temp current_temp)).

(** Update current humidity. *)
Definition update_current_humidity (new_state : State) : M Thermostat unit :=
  self ← get_self;
  when (bool_decide (CHAR_CURRENT_HUMIDITY ∈ chars self))
    (let current_humdity := attr_get new_state ATTR_CURRENT_HUMIDITY in
     when (is_number current_humdity)
       (v ← char_value TRef.current_humidity;
        when (py_ne v current_humdity)
          (set_value TRef.current_humidity current_humdity))).

(** Update target humidity. *)
Definition update_target_humidity (new_state : State) : M Thermostat unit :=
  self ← get_self;
  when (bool_decide (CHAR_TARGET_HUMIDITY ∈ chars self))
    (let target_humdity := attr_get new_state ATTR_HUMIDITY in
     when (is_number target_humdity)
       (v ← char_value TRef.target_humidity;
        when (py_ne v target_humdity)
          (set_value TRef.target_humidity target_humdity))).

(** Update cooling threshold temperature if characteristic exists.  The
    value compared is the one of [self.char_heating_thresh_temp], the value
    written is the one of [self.char_cooling_thresh_temp]. *)
Definition update_cooling_thresh (new_state : State) : M Thermostat unit :=
  present ← char_present TRef.cooling_thresh_temp;
  when present
    (let cooling_thresh := attr_get new_state ATTR_TARGET_TEMP_HIGH in
     when (is_number cooling_thresh)
       (self ← get_self;
        cooling_thresh ← lift (temperature_to_homekit cooling_thresh (_unit self));
        v ← char_value TRef.heating_thresh_temp;
        when (py_ne v cooling_thresh)
          (set_value TRef.cooling_thresh_temp cooling_thresh))).

(** Update heating threshold temperature if characteristic exists. *)
Definition update_heating_thresh (new_state : State) : M Thermostat unit :=
  present ← char_present TRef.heating_thresh_temp;
  when present
    (let heating_thresh := attr_get new_state ATTR_TARGET_TEMP_LOW in
     when (is_number heating_thresh)
       (self ← get_self;
        heating_thresh ← lift (temperature_to_homekit heating_thresh (_unit self));
        v ← char_value TRef.heating_thresh_temp;
        when (py_ne v heating_thresh)
          (set_value TRef.heating_thresh_temp heating_thresh))).

(** Update target temperature. *)
Definition update_target_temp (new_state : State) : M Thermostat unit :=
  let features := attr_get_default new_state ATTR_SUPPORTED_FEATURES (PInt 0) in
  let target_temp := attr_get new_state ATTR_TEMPERATURE in
  self ← get_self;
  target_temp ←
    (if is_number target_temp
     then lift (temperature_to_homekit target_temp (_unit self))
     else
       range ← lift (has_feature features SUPPORT_TARGET_TEMPERATURE_RANGE);
       if (range : bool) then
         (* Homekit expects a target temperature
            even if the device does not support it *)
         hc_hvac_mode ← char_value TRef.target_heat_cool;
         if py_eq hc_hvac_mode (PInt HC_HEAT_COOL_HEAT) then
           lift (temperature_to_homekit
                   (attr_get new_state ATTR_TARGET_TEMP_LOW) (_unit self))
         else if py_eq hc_hvac_mode (PInt HC_HEAT_COOL_COOL) then
           lift (temperature_to_homekit
                   (attr_get new_state ATTR_TARGET_TEMP_HIGH) (_unit self))
         else mret target_temp
       else mret target_temp);
  when (truthy target_temp)
    (v ← char_value TRef.target_temp;
     when (py_ne v target_temp) (set_value TRef.target_temp target_temp)).

(** Update display units. *)
Definition update_display_units : M Thermostat unit :=
  self ← get_self;
  when (truthy (PStr (_unit self)) && dict_has (_unit self) UNIT_HASS_TO_HOMEKIT)
    (unit ← lift (subscript (dict_get (_unit self) UNIT_HASS_TO_HOMEKIT));
     v ← char_value TRef.display_units;
     when (py_ne v (PInt unit)) (set_value TRef.display_units (PInt unit))).

Definition update_state (new_state : State) : M Thermostat unit :=
  update_target_mode new_state;;
  update_current_mode new_state;;
  update_current_temp new_state;;
  update_current_humidity new_state;;
  update_target_humidity new_state;;
  update_cooling_thresh new_state;;
  update_heating_thresh new_state;;
  update_target_temp new_state;;
  update_display_units.

(** The blocks of [update_state] in the order of the source, each with
    the characteristic whose [set_value] it calls. *)
Definition update_state_blocks (new_state : State)
  : list (char_id * M Thermostat unit) :=
  [ (CHAR_TARGET_HEATING_COOLING, update_target_mode new_state);
    (CHAR_CURRENT_HEATING_COOLING, update_current_mode new_state);
    (CHAR_CURRENT_TEMPERATURE, update_current_temp new_state);
    (CHAR_CURRENT_HUMIDITY, update_current_humidity new_state);
    (CHAR_TARGET_HUMIDITY, update_target_humidity new_state);
    (CHAR_COOLING_THRESHOLD_TEMPERATURE, update_cooling_thresh new_state);
    (CHAR_HEATING_THRESHOLD_TEMPERATURE, update_heating_thresh new_state);
    (CHAR_TARGET_TEMPERATURE, update_target_temp new_state);
    (CHAR_TEMP_DISPLAY_UNITS, update_display_units) ].

(** *** [Thermostat.__init__]

    The range is computed when the object has its unit only.  The
    characteristics get the values passed to [configure_char]; the target
    mode is configured without one and starts at [target_mode_start], the
    value the hosting library picks among the valid ones.  Then the entity's
    state is pushed through [update_state]. *)
Definition Thermostat_init (entity unit : string) (hass_state : State)
    (target_mode_start : pyval) : result Thermostat :=
  let unset := {| value := PNone |} in
  let self :=
    {| entity_id := entity; _unit := unit; chars := [];
       hc_homekit_to_hass := ∅;
       char_current_heat_cool := unset; char_target_heat_cool := unset;
       char_current_temp := unset; char_target_temp := unset;
       char_display_units := unset;
       char_cooling_thresh_temp := None; char_heating_thresh_temp := None;
       char_target_humidity := None; char_current_humidity := None |} in
  _ ← init_temperature_range self hass_state;
  (* Add additional characteristics if auto mode is supported *)
  let features := attr_get_default hass_state ATTR_SUPPORTED_FEATURES (PInt 0) in
  range ← has_feature features SUPPORT_TARGET_TEMPERATURE_RANGE;
  let chars :=
    if (range : bool)
    then [CHAR_COOLING_THRESHOLD_TEMPERATURE; CHAR_HEATING_THRESHOLD_TEMPERATURE]
    else [] in
  humidity ← has_feature features SUPPORT_TARGET_HUMIDITY;
  let chars :=
    if (humidity : bool)
    then (chars ++ [CHAR_TARGET_HUMIDITY; CHAR_CURRENT_HUMIDITY])%list
    else chars in
  let configured (c : char_id) (v : pyval) : option Char :=
    if bool_decide (c ∈ chars) then Some {| value := v |} else None in
  let self :=
    {| entity_id := entity; _unit := unit; chars := chars;
       hc_homekit_to_hass := init_hc_homekit_to_hass (hvac_modes hass_state);
       char_current_heat_cool := {| value := PInt 0 |};
       char_target_heat_cool := {| value := target_mode_start |};
       char_current_temp := {| value := PFloat 21 |};
       char_target_temp := {| value := PFloat 21 |};
       char_display_units := {| value := PInt 0 |};
       (* If the device supports it: high and low temperature characteristics *)
       char_cooling_thresh_temp :=
         configured CHAR_COOLING_THRESHOLD_TEMPERATURE (PFloat 23);
       char_heating_thresh_temp :=
         configured CHAR_HEATING_THRESHOLD_TEMPERATURE (PFloat 19);
       char_target_humidity := configured CHAR_TARGET_HUMIDITY (PInt 50);
       char_current_humidity := configured CHAR_CURRENT_HUMIDITY (PInt 50) |} in
  match run (update_state hass_state) self with
  | (Ok _, (self, _)) => Ok self
  | (Err e, _) => Err e
  end.

(** ** The methods of the WaterHeater accessory *)

(** *** [WaterHeater.get_temperature_range] *)
Definition WaterHeater_get_temperature_range (unit : string) (hass_state : State)
  : result (pyval * pyval) :=
  let max_temp := attr_get hass_state ATTR_MAX_TEMP in
  max_temp ←
    (if truthy max_temp then temperature_to_homekit max_temp unit
     else Ok DEFAULT_MAX_TEMP_WATER_HEATER);
  max_temp ← round_half max_temp;
  let min_temp := attr_get hass_state ATTR_MIN_TEMP in
  min_temp ←
    (if truthy min_temp then temperature_to_homekit min_temp unit
     else Ok DEFAULT_MIN_TEMP_WATER_HEATER);
  min_temp ← round_half min_temp;
  Ok (min_temp, max_temp).

(** *** [WaterHeater.set_heat_cool] *)
Definition WaterHeater_set_heat_cool (v : pyval) : M WaterHeater unit :=
  hass_value ← lift (int_dict_getitem HC_HOMEKIT_TO_HASS v);
  when (negb (String.eqb hass_value HVAC_MODE_HEAT))
    (cur ← char_value wh_target_heat_cool;
     when (py_ne cur (PInt 1)) (set_value wh_target_heat_cool (PInt 1))).

(** *** [WaterHeater.set_target_temperature] *)
Definition WaterHeater_set_target_temperature (self : WaterHeater) (v : pyval)
  : result service_call :=
  temperature ← temperature_to_states v (wh_unit self);
  Ok {| call_domain := DOMAIN_WATER_HEATER;
        call_service := SERVICE_SET_TEMPERATURE_WATER_HEATER;
        call_params :=
          <[ATTR_TEMPERATURE := temperature]>
            {[ATTR_ENTITY_ID := PStr (wh_entity_id self)]};
        call_description := [EvValue temperature] |}.

(** *** [WaterHeater.update_state] *)
Definition WaterHeater_update_state (new_state : State) : M WaterHeater unit :=
  (* Update current and target temperature *)
  let temperature := attr_get new_state ATTR_TEMPERATURE in
  when (is_number temperature)
    (self ← get_self;
     temperature ← lift (temperature_to_homekit temperature (wh_unit self));
     cur ← char_value wh_current_temp;
     when (py_ne temperature cur) (set_value wh_target_temp temperature));;
  (* Update display units *)
  self ← get_self;
  when (truthy (PStr (wh_unit self)) && dict_has (wh_unit self) UNIT_HASS_TO_HOMEKIT)
    (unit ← lift (subscript (dict_get (wh_unit self) UNIT_HASS_TO_HOMEKIT));
     v ← char_value wh_display_units;
     when (py_ne v (PInt unit)) (set_value wh_display_units (PInt unit)));;
  (* Update target operation mode *)
  let operation_mode := state new_state in
  when (truthy (PStr operation_mode))
    (cur ← char_value wh_target_heat_cool;
     when (py_ne cur (PInt 1)) (set_value wh_target_heat_cool (PInt 1))).

(** *** [WaterHeater.__init__]

    The characteristics get their construction values, then the entity's
    state is pushed through [update_state]. *)
Definition WaterHeater_init (entity unit : string) (hass_state : State)
  : result WaterHeater :=
  '(min_temp, max_temp) ← WaterHeater_get_temperature_range unit hass_state;
  let self :=
    {| wh_entity_id := entity; wh_unit := unit;
       wh_char_current_heat_cool := {| value := PInt 1 |};
       wh_char_target_heat_cool := {| value := PInt 1 |};
       wh_char_current_temp := {| value := PFloat 50 |};
       wh_char_target_temp := {| value := PFloat 50 |};
       wh_char_display_units := {| value := PInt 0 |} |} in
  match run (WaterHeater_update_state hass_state) self with
  | (Ok _, (self, _)) => Ok self
  | (Err e, _) => Err e
  end.

(** [update_state] called once for each snapshot of a sequence, as the
    platform does on every change of the entity; the result is the object
    left behind and all the writes made. *)
Definition WaterHeater_updates (snapshots : list State) (self : WaterHeater)
  : WaterHeater * list write :=
  foldl (fun acc new_state =>
           let r := run (WaterHeater_update_state new_state) acc.1 in
           (obj_after r, (acc.2 ++ writes_of r)%list))
        (self, []) snapshots.

(** The reverse map of a mode list, with the seven membership tests of the
    comprehension's filter made explicit. *)
Definition reverse_map_of_tests (off heat cool auto heat_cool dry fan_only : bool)
  : gmap Z string :=
  let m0 : gmap Z string := ∅ in
  let m1 := if off then <[HC_HEAT_COOL_OFF := HVAC_MODE_OFF]> m0 else m0 in
  let m2 := if heat then <[HC_HEAT_COOL_HEAT := HVAC_MODE_HEAT]> m1 else m1 in
  let m3 := if cool then <[HC_HEAT_COOL_COOL := HVAC_MODE_COOL]> m2 else m2 in
  let m4 := if auto && negb heat_cool
            then <[HC_HEAT_COOL_AUTO := HVAC_MODE_AUTO]> m3 else m3 in
  let m5 := if heat_cool
            then <[HC_HEAT_COOL_AUTO := HVAC_MODE_HEAT_COOL]> m4 else m4 in
  let m6 := if dry && negb cool
            then <[HC_HEAT_COOL_COOL := HVAC_MODE_DRY]> m5 else m5 in
  if fan_only && negb cool
  then <[HC_HEAT_COOL_COOL := HVAC_MODE_FAN_ONLY]> m6 else m6.

(** The reading of the two threshold blocks of [Thermostat.update_state]
    under which the heating-threshold characteristic is the one written by
    both of them. *)
Definition threshold_blocks_write_heating : Prop :=
  forall (new_state : State) (self : Thermostat),
    Forall (fun wr : write => wr.1 = CHAR_HEATING_THRESHOLD_TEMPERATURE)
           (writes_of (run (update_cooling_thresh new_state) self))
    /\ Forall (fun wr : write => wr.1 = CHAR_HEATING_THRESHOLD_TEMPERATURE)
              (writes_of (run (update_heating_thresh new_state) self)).

(** * Properties *)

(** ** The mode tables *)

Lemma str_in_elem_of (s : string) (l : list string) :
  str_in s l = true <-> s ∈ l.
Proof using Type.
  unfold str_in. rewrite existsb_exists. split.
  - intros (x & Hx & E). apply String.eqb_eq in E. subst x.
    by apply list_elem_of_In.
  - intros H. exists s. split; [by apply list_elem_of_In | apply String.eqb_refl].
Qed.

(** The forward table has exactly the seven hvac modes as keys. *)
Lemma HC_HASS_TO_HOMEKIT_keys (m : string) (c : Z) :
  dict_get m HC_HASS_TO_HOMEKIT = Some c ->
  (m = HVAC_MODE_OFF /\ c = HC_HEAT_COOL_OFF)
  \/ (m = HVAC_MODE_HEAT /\ c = HC_HEAT_COOL_HEAT)
  \/ (m = HVAC_MODE_COOL /\ c = HC_HEAT_COOL_COOL)
  \/ (m = HVAC_MODE_AUTO /\ c = HC_HEAT_COOL_AUTO)
  \/ (m = HVAC_MODE_HEAT_COOL /\ c = HC_HEAT_COOL_AUTO)
  \/ (m = HVAC_MODE_DRY /\ c = HC_HEAT_COOL_COOL)
  \/ (m = HVAC_MODE_FAN_ONLY /\ c = HC_HEAT_COOL_COOL).
Proof using Type.
  unfold HC_HASS_TO_HOMEKIT. simpl.
  repeat match goal with
         | |- context [String.eqb m ?s] =>
             destruct (String.eqb_spec m s) as [-> | _];
             [intros [= <-];
              solve [repeat first [ solve [split; reflexivity]
                                  | solve [left; split; reflexivity]
                                  | right ]] |]
         end.
  intros; discriminate.
Qed.

Lemma init_hc_homekit_to_hass_tests (hc_modes : list string) :
  init_hc_homekit_to_hass (Some hc_modes) =
  reverse_map_of_tests
    (str_in HVAC_MODE_OFF hc_modes) (str_in HVAC_MODE_HEAT hc_modes)
    (str_in HVAC_MODE_COOL hc_modes) (str_in HVAC_MODE_AUTO hc_modes)
    (str_in HVAC_MODE_HEAT_COOL hc_modes) (str_in HVAC_MODE_DRY hc_modes)
    (str_in HVAC_MODE_FAN_ONLY hc_modes).
Proof using Type.
  unfold init_hc_homekit_to_hass, reverse_dict, reverse_map_of_tests,
    mode_available, HC_HASS_TO_HOMEKIT.
  cbn [foldl].
  change (String.eqb HVAC_MODE_OFF HVAC_MODE_AUTO) with false.
  change (String.eqb HVAC_MODE_HEAT HVAC_MODE_AUTO) with false.
  change (String.eqb HVAC_MODE_COOL HVAC_MODE_AUTO) with false.
  change (String.eqb HVAC_MODE_AUTO HVAC_MODE_AUTO) with true.
  change (String.eqb HVAC_MODE_HEAT_COOL HVAC_MODE_AUTO) with false.
  change (String.eqb HVAC_MODE_DRY HVAC_MODE_AUTO) with false.
  change (String.eqb HVAC_MODE_FAN_ONLY HVAC_MODE_AUTO) with false.
  change (str_in HVAC_MODE_OFF [HVAC_MODE_DRY; HVAC_MODE_FAN_ONLY]) with false.
  change (str_in HVAC_MODE_HEAT [HVAC_MODE_DRY; HVAC_MODE_FAN_ONLY]) with false.
  change (str_in HVAC_MODE_COOL [HVAC_MODE_DRY; HVAC_MODE_FAN_ONLY]) with false.
  change (str_in HVAC_MODE_AUTO [HVAC_MODE_DRY; HVAC_MODE_FAN_ONLY]) with false.
  change (str_in HVAC_MODE_HEAT_COOL [HVAC_MODE_DRY; HVAC_MODE_FAN_ONLY]) with false.
  change (str_in HVAC_MODE_DRY [HVAC_MODE_DRY; HVAC_MODE_FAN_ONLY]) with true.
  change (str_in HVAC_MODE_FAN_ONLY [HVAC_MODE_DRY; HVAC_MODE_FAN_ONLY]) with true.
  cbv zeta.
  destruct (str_in HVAC_MODE_OFF hc_modes), (str_in HVAC_MODE_HEAT hc_modes),
    (str_in HVAC_MODE_COOL hc_modes), (str_in HVAC_MODE_AUTO hc_modes),
    (str_in HVAC_MODE_HEAT_COOL hc_modes), (str_in HVAC_MODE_DRY hc_modes),
    (str_in HVAC_MODE_FAN_ONLY hc_modes); reflexivity.
Qed.

Ltac split_mode_tests hc_modes :=
  destruct (str_in HVAC_MODE_OFF hc_modes) eqn:Hoff,
    (str_in HVAC_MODE_HEAT hc_modes) eqn:Hheat,
    (str_in HVAC_MODE_COOL hc_modes) eqn:Hcool,
    (str_in HVAC_MODE_AUTO hc_modes) eqn:Hauto,
    (str_in HVAC_MODE_HEAT_COOL hc_modes) eqn:Hheat_cool,
    (str_in HVAC_MODE_DRY hc_modes) eqn:Hdry,
    (str_in HVAC_MODE_FAN_ONLY hc_modes) eqn:Hfan_only.

(** C4: the reverse mode map built at construction sends Auto to heat_cool
    whenever heat_cool is in the mode list (auto is then left out), sends
    Cool to cool whenever cool is in the list (dry and fan_only are then
    left out), and each of its entries is a mode of the list whose image
    under the forward table is the entry's key. *)
Theorem reverse_map_preference (hc_modes : list string) :
  let m := init_hc_homekit_to_hass (Some hc_modes) in
  (HVAC_MODE_HEAT_COOL ∈ hc_modes ->
   m !! HC_HEAT_COOL_AUTO = Some HVAC_MODE_HEAT_COOL)
  /\ (HVAC_MODE_COOL ∈ hc_modes ->
      m !! HC_HEAT_COOL_COOL = Some HVAC_MODE_COOL)
  /\ (forall (c : Z) (s : string),
        m !! c = Some s ->
        s ∈ hc_modes /\ dict_get s HC_HASS_TO_HOMEKIT = Some c).
Proof using Type.
  intros m. subst m. rewrite init_hc_homekit_to_hass_tests.
  split; [| split].
  - intros H. apply str_in_elem_of in H. rewrite H.
    split_mode_tests hc_modes; try discriminate; reflexivity.
  - intros H. apply str_in_elem_of in H. rewrite H.
    split_mode_tests hc_modes; try discriminate; reflexivity.
  - intros c s H.
    split_mode_tests hc_modes;
      cbv [reverse_map_of_tests andb negb] in H;
      repeat (apply lookup_insert_Some in H as [[<- <-] | [_ H]]);
      try (rewrite lookup_empty in H; discriminate);
      (split; [by apply str_in_elem_of | reflexivity]).
Qed.

(** C5: a mode of the list that the forward table translates comes back,
    through the reverse map built from that list, as a mode with the same
    image under the forward table. *)
Theorem mode_round_trip (hc_modes : list string) (m : string) (c : Z) :
  m ∈ hc_modes ->
  subscript (dict_get m HC_HASS_TO_HOMEKIT) = Ok c ->
  exists s : string,
    int_dict_getitem (init_hc_homekit_to_hass (Some hc_modes)) (PInt c) = Ok s
    /\ subscript (dict_get s HC_HASS_TO_HOMEKIT) = Ok c.
Proof using Type.
  intros Hin Hfwd.
  destruct (dict_get m HC_HASS_TO_HOMEKIT) as [c' |] eqn:Hm; [| discriminate].
  injection Hfwd as ->.
  apply str_in_elem_of in Hin.
  unfold int_dict_getitem, int_key.
  rewrite init_hc_homekit_to_hass_tests.
  apply HC_HASS_TO_HOMEKIT_keys in Hm.
  destruct Hm as [[-> ->] | [[-> ->] | [[-> ->] | [[-> ->] | [[-> ->] |
    [[-> ->] | [-> ->]]]]]]];
    rewrite Hin;
    split_mode_tests hc_modes; try discriminate;
    eexists; (split; [reflexivity | reflexivity]).
Qed.

(** ** The temperature range *)

Lemma py_round_near (x : Q) : (Qabs (inject_Z (py_round x) - x) <= 1 # 2)%Q.
Proof using Type.
  unfold py_round.
  pose proof (Qfloor_le x) as Hlo.
  pose proof (Qlt_floor x) as Hhi.
  rewrite inject_Z_plus in Hhi. change (inject_Z 1) with 1%Q in Hhi.
  apply Qabs_Qle_condition.
  destruct (Qcompare_spec (x - inject_Z (Qfloor x)) (1 # 2)) as [E | L | G].
  - destruct (Z.even (Qfloor x)); rewrite ?inject_Z_plus;
      change (inject_Z 1) with 1%Q; split; lra.
  - split; lra.
  - rewrite inject_Z_plus. change (inject_Z 1) with 1%Q. split; lra.
Qed.

Lemma nearest_half_near (x : Q) : (Qabs (nearest_half x - x) <= 1 # 4)%Q.
Proof using Type.
  unfold nearest_half.
  pose proof (py_round_near (x * 2)) as H.
  apply Qabs_Qle_condition in H. apply Qabs_Qle_condition.
  set (r := inject_Z (py_round (x * 2))) in *.
  assert (E : (r / 2 == r * (1 # 2))%Q) by (unfold Qdiv; reflexivity).
  rewrite E. split; lra.
Qed.

Lemma nearest_half_step (x : Q) :
  exists k : Z, (nearest_half x == inject_Z k / 2)%Q.
Proof using Type. exists (py_round (x * 2)). reflexivity. Qed.

(** [max(min_temp, HC_MIN_TEMP)] on a float [min_temp]. *)
Lemma py_max_floor (r : Q) :
  exists (lo : pyval) (q : Q),
    py_max (PFloat r) (PInt HC_MIN_TEMP) = Ok lo
    /\ num_of lo = Some q /\ (q == Qmax r 10)%Q.
Proof using Type.
  unfold py_max, py_gt, py_lt, num_of, HC_MIN_TEMP.
  destruct (Qle_bool (inject_Z 10) r) eqn:E; simpl.
  - exists (PFloat r), r. repeat split.
    apply Qle_bool_iff in E. symmetry. apply Q.max_l. exact E.
  - exists (PInt 10), (inject_Z 10). repeat split.
    symmetry. apply Q.max_r. apply Qlt_le_weak. apply Qnot_le_lt.
    intros H. apply Qle_bool_iff in H. congruence.
Qed.

(** C7: the range computation rounds each bound to the nearest multiple of
    0.5; the range declared at construction raises the minimum to the floor
    of 10 and passes the maximum through, without a cap. *)
Theorem temperature_range_rounding (self : Thermostat) (hass_state : State)
    (vmin vmax : pyval) (xmin xmax : Q) :
  range_bound self hass_state ATTR_MAX_TEMP DEFAULT_MAX_TEMP = Ok vmax ->
  num_of vmax = Some xmax ->
  range_bound self hass_state ATTR_MIN_TEMP DEFAULT_MIN_TEMP = Ok vmin ->
  num_of vmin = Some xmin ->
  let rmin := nearest_half xmin in
  let rmax := nearest_half xmax in
  get_temperature_range self hass_state
    = Ok (PFloat (Qred rmin), PFloat (Qred rmax))
  /\ (exists (lo : pyval) (q : Q),
        init_temperature_range self hass_state = Ok (lo, PFloat (Qred rmax))
        /\ num_of lo = Some q /\ (q == Qmax rmin 10)%Q)
  /\ (exists k : Z, (rmin == inject_Z k / 2)%Q)
  /\ (exists k : Z, (rmax == inject_Z k / 2)%Q)
  /\ (Qabs (rmin - xmin) <= 1 # 4)%Q
  /\ (Qabs (rmax - xmax) <= 1 # 4)%Q.
Proof using Type.
  intros Hmax Hxmax Hmin Hxmin rmin rmax.
  assert (Hrange : get_temperature_range self hass_state
                   = Ok (PFloat (Qred rmin), PFloat (Qred rmax))).
  { unfold get_temperature_range. unfold range_bound in Hmax, Hmin.
    rewrite Hmax. cbn [mbind result_bind rbind].
    unfold round_half. rewrite Hxmax. cbn [mbind result_bind rbind].
    rewrite Hmin. cbn [mbind result_bind rbind].
    rewrite Hxmin. reflexivity. }
  split; [exact Hrange |].
  split.
  - destruct (py_max_floor (Qred rmin)) as (lo & q & Hlo & Hq & E).
    exists lo, q. unfold init_temperature_range. rewrite Hrange.
    cbn [mbind result_bind rbind]. rewrite Hlo. cbn [mbind result_bind rbind].
    repeat split; [exact Hq |].
    rewrite E. rewrite (Qred_correct rmin). reflexivity.
  - repeat split.
    + apply nearest_half_step.
    + apply nearest_half_step.
    + apply nearest_half_near.
    + apply nearest_half_near.
Qed.

(** ** Inbound writes: [Thermostat._set_chars] *)

(** C8: the entity's state is looked up in the forward mode table before
    anything else, so when it is not one of the seven hvac modes every
    inbound write, whatever it contains, ends in a [KeyError]. *)
Theorem set_chars_unknown_state (self : Thermostat) (hass_state : State)
    (char_values : gmap char_id pyval) :
  dict_get (state hass_state) HC_HASS_TO_HOMEKIT = None ->
  _set_chars self hass_state char_values = Err KeyError.
Proof using Type.
  intros H. unfold _set_chars. rewrite H. reflexivity.
Qed.

(** C6: a write that holds only a target mode equal to the image of the
    entity's current state issues no service call. *)
Theorem set_chars_self_echo (self : Thermostat) (hass_state : State)
    (v : pyval) (homekit_hvac_mode : Z) :
  subscript (dict_get (state hass_state) HC_HASS_TO_HOMEKIT)
    = Ok homekit_hvac_mode ->
  py_eq v (PInt homekit_hvac_mode) = true ->
  _set_chars self hass_state {[CHAR_TARGET_HEATING_COOLING := v]} = Ok [].
Proof using Type.
  intros Hmode Heq. unfold _set_chars. rewrite Hmode.
  cbn [mbind result_bind rbind].
  rewrite lookup_singleton_eq. unfold py_ne. rewrite Heq.
  cbn [negb mbind result_bind rbind].
  rewrite !lookup_singleton_ne by discriminate.
  reflexivity.
Qed.

(** C3: with the heating threshold at 19 and the cooling threshold at 23, a
    cooling-threshold write of 15 makes the bounds high = 15 and
    low = 15 - 5 = 10; the high bound is then capped at the maximum of the
    entity's range and the low bound raised to its minimum, and the one
    set-temperature call carries both, converted to the entity's unit. *)
Theorem set_chars_cooling_below_heating (self : Thermostat)
    (hass_state : State) (homekit_hvac_mode : Z) (min_temp max_temp : Q) :
  subscript (dict_get (state hass_state) HC_HASS_TO_HOMEKIT)
    = Ok homekit_hvac_mode ->
  char_cooling_thresh_temp self = Some {| value := PFloat 23 |} ->
  char_heating_thresh_temp self = Some {| value := PFloat 19 |} ->
  get_temperature_range self hass_state
    = Ok (PFloat min_temp, PFloat max_temp) ->
  let high := if Qle_bool 15 max_temp then 15%Q else max_temp in
  let low := if Qle_bool min_temp 10 then 10%Q else min_temp in
  (high == Qmin 15 max_temp)%Q
  /\ (low == Qmax (15 - 5) min_temp)%Q
  /\ _set_chars self hass_state
       {[CHAR_COOLING_THRESHOLD_TEMPERATURE := PFloat 15]}
     = (states_high ← temperature_to_states (PFloat high) (_unit self);
        states_low ← temperature_to_states (PFloat low) (_unit self);
        Ok [ {| call_domain := DOMAIN_CLIMATE;
                call_service := SERVICE_SET_TEMPERATURE_THERMOSTAT;
                call_params :=
                  <[ATTR_ENTITY_ID := PStr (entity_id self)]>
                    (<[ATTR_TARGET_TEMP_LOW := states_low]>
                       {[ATTR_TARGET_TEMP_HIGH := states_high]});
                call_description :=
                  [EvChar CHAR_COOLING_THRESHOLD_TEMPERATURE (PFloat 15)] |} ]).
Proof using Type.
  intros Hmode Hcool Hheat Hrange high low.
  assert (Hhigh : py_min (PFloat 15) (PFloat max_temp) = Ok (PFloat high)
                  /\ (high == Qmin 15 max_temp)%Q).
  { unfold py_min, py_lt, num_of. subst high.
    destruct (Qle_bool 15 max_temp) eqn:E; cbn [negb]; (split; [reflexivity |]).
    - apply Qle_bool_iff in E. symmetry. apply Q.min_l. exact E.
    - symmetry. apply Q.min_r. apply Qlt_le_weak. apply Qnot_le_lt.
      intros H. apply Qle_bool_iff in H. congruence. }
  assert (Hlow : py_max (PFloat 10) (PFloat min_temp) = Ok (PFloat low)
                 /\ (low == Qmax 10 min_temp)%Q).
  { unfold py_max, py_gt, py_lt, num_of. subst low.
    destruct (Qle_bool min_temp 10) eqn:E; cbn [negb]; (split; [reflexivity |]).
    - apply Qle_bool_iff in E. symmetry. apply Q.max_l. exact E.
    - symmetry. apply Q.max_r. apply Qlt_le_weak. apply Qnot_le_lt.
      intros H. apply Qle_bool_iff in H. congruence. }
  destruct Hhigh as [Hhigh Ehigh]. destruct Hlow as [Hlow Elow].
  split; [exact Ehigh |]. split; [exact Elow |].
  unfold _set_chars. rewrite Hmode.
  cbn [mbind result_bind rbind].
  rewrite !lookup_singleton_ne by discriminate.
  cbn [mbind result_bind rbind].
  rewrite lookup_singleton_eq.
  rewrite (bool_decide_true (is_Some (Some (PFloat 15)))) by eauto.
  rewrite orb_true_r.
  rewrite Hcool, Hheat. cbn [value_of value mbind result_bind rbind].
  rewrite Hrange. cbn [mbind result_bind rbind].
  change (py_lt (PFloat 15) (PFloat 19)) with (Ok true).
  cbn [mbind result_bind rbind].
  change (py_sub (PFloat 15) (PInt HEAT_COOL_DEADBAND)) with (Ok (PFloat 10)).
  cbn [mbind result_bind rbind].
  rewrite !lookup_singleton_ne by discriminate.
  cbn [mbind result_bind rbind].
  rewrite Hhigh. cbn [mbind result_bind rbind].
  rewrite Hlow. cbn [mbind result_bind rbind].
  destruct (temperature_to_states (PFloat high) (_unit self)); [| reflexivity].
  cbn [mbind result_bind rbind].
  destruct (temperature_to_states (PFloat low) (_unit self)); reflexivity.
Qed.

(** ** Pushing entity state: [update_state] *)

(** Unfold the monad of the methods and run the steps that do not wait for
    a test. *)
Ltac reduce_method :=
  cbv beta iota zeta delta
    [run obj_after writes_of when lift get_self char_present char_value
     set_value mbind mret M_bind M_ret result_bind result_ret rbind
     fst snd ref_get ref_set ref_id];
  cbn [app].

(** Follow every path of a method: one case for each outcome of each test,
    lookup and conversion. *)
Ltac split_branches :=
  repeat (reduce_method;
          match goal with
          | |- context [if ?b then _ else _] => destruct b eqn:?
          | |- context [match ?x with Ok _ => _ | Err _ => _ end] =>
              destruct x eqn:?
          | |- context [match ?x with Some _ => _ | None => _ end] =>
              destruct x eqn:?
          end);
  reduce_method.

(** What one [WaterHeater.update_state] call leaves untouched, and the
    only characteristics it can write. *)
Lemma WaterHeater_update_state_frame (new_state : State) (w : WaterHeater) :
  let r := run (WaterHeater_update_state new_state) w in
  wh_char_current_temp (obj_after r) = wh_char_current_temp w
  /\ wh_char_current_heat_cool (obj_after r) = wh_char_current_heat_cool w
  /\ wh_unit (obj_after r) = wh_unit w
  /\ wh_entity_id (obj_after r) = wh_entity_id w
  /\ Forall (fun wr : write =>
               wr.1 ∈ [CHAR_TARGET_TEMPERATURE; CHAR_TEMP_DISPLAY_UNITS;
                       CHAR_TARGET_HEATING_COOLING])
            (writes_of r).
Proof using Type.
  unfold WaterHeater_update_state, wh_target_temp, wh_display_units,
    wh_target_heat_cool, wh_current_temp.
  split_branches;
    (repeat split; try reflexivity; repeat constructor).
Qed.

Lemma WaterHeater_init_current_temp (entity unit : string) (hass_state : State)
    (w : WaterHeater) :
  WaterHeater_init entity unit hass_state = Ok w ->
  wh_char_current_temp w = {| value := PFloat 50 |}.
Proof using Type.
  unfold WaterHeater_init.
  destruct (WaterHeater_get_temperature_range unit hass_state)
    as [[min_temp max_temp] | e]; [| discriminate].
  cbn [mbind result_bind rbind].
  match goal with
  | |- context [run ?m ?self] =>
      pose proof (WaterHeater_update_state_frame hass_state self) as Hframe;
      destruct (run m self) as [[u | e] [w' log]]
  end; [| discriminate].
  intros [= <-]. apply Hframe.
Qed.

Lemma WaterHeater_updates_frame (snapshots : list State)
    (acc : WaterHeater * list write) :
  let f := fun (acc : WaterHeater * list write) new_state =>
             let r := run (WaterHeater_update_state new_state) acc.1 in
             (obj_after r, (acc.2 ++ writes_of r)%list) in
  wh_char_current_temp (foldl f acc snapshots).1 = wh_char_current_temp acc.1
  /\ (Forall (fun wr : write => wr.1 <> CHAR_CURRENT_TEMPERATURE) acc.2 ->
      Forall (fun wr : write => wr.1 <> CHAR_CURRENT_TEMPERATURE)
             (foldl f acc snapshots).2).
Proof using Type.
  intros f. revert acc.
  induction snapshots as [| new_state snapshots IH]; intros acc.
  - split; [reflexivity | intros H; exact H].
  - cbn [foldl]. destruct (IH (f acc new_state)) as [IHtemp IHlog].
    destruct (WaterHeater_update_state_frame new_state acc.1)
      as (Htemp & _ & _ & _ & Hlog).
    split.
    + rewrite IHtemp. exact Htemp.
    + intros Hacc. apply IHlog. unfold f at 1. cbn [snd].
      apply Forall_app. split; [exact Hacc |].
      eapply Forall_impl; [exact Hlog |].
      intros [c v] Hc. cbn [fst] in Hc |- *.
      intros ->. revert Hc. rewrite !elem_of_cons, elem_of_nil.
      intros [H | [H | [H | H]]]; [discriminate.. | exact H].
Qed.

(** C9: [WaterHeater.update_state] never writes the current-temperature
    characteristic: a call leaves it, the current-mode characteristic, the
    unit and the entity id as they were and writes only the target
    temperature, the display units and the target mode; so the
    current-temperature characteristic keeps its construction value, 50.0,
    whatever snapshots are pushed. *)
Theorem water_heater_current_temp_never_written :
  (forall (new_state : State) (w : WaterHeater),
     let r := run (WaterHeater_update_state new_state) w in
     wh_char_current_temp (obj_after r) = wh_char_current_temp w
     /\ wh_char_current_heat_cool (obj_after r) = wh_char_current_heat_cool w
     /\ Forall (fun wr : write =>
                  wr.1 ∈ [CHAR_TARGET_TEMPERATURE; CHAR_TEMP_DISPLAY_UNITS;
                          CHAR_TARGET_HEATING_COOLING])
               (writes_of r))
  /\ (forall (entity unit : string) (hass_state : State) (w : WaterHeater)
             (snapshots : list State),
        WaterHeater_init entity unit hass_state = Ok w ->
        value (wh_char_current_temp (WaterHeater_updates snapshots w).1)
          = PFloat 50
        /\ Forall (fun wr : write => wr.1 <> CHAR_CURRENT_TEMPERATURE)
                  (WaterHeater_updates snapshots w).2).
Proof using Type.
  split.
  - intros new_state w.
    destruct (WaterHeater_update_state_frame new_state w)
      as (Htemp & Hmode & _ & _ & Hlog).
    auto.
  - intros entity unit hass_state w snapshots Hinit.
    apply WaterHeater_init_current_temp in Hinit.
    destruct (WaterHeater_updates_frame snapshots (w, [])) as [Htemp Hlog].
    cbv zeta in Htemp, Hlog. unfold WaterHeater_updates. split.
    + rewrite Htemp. cbn [fst]. rewrite Hinit. reflexivity.
    + apply Hlog. constructor.
Qed.

(** C10: [WaterHeater.update_state] writes the target-temperature
    characteristic exactly when the snapshot's temperature attribute is a
    number whose converted value differs from the value of the
    current-temperature characteristic; the value of the target-temperature
    characteristic plays no part, so a write made once is made again by the
    next call with the same snapshot. *)
Theorem water_heater_target_temp_write (new_state : State) (w : WaterHeater)
    (v : pyval) :
  let temperature := attr_get new_state ATTR_TEMPERATURE in
  let r := run (WaterHeater_update_state new_state) w in
  ((CHAR_TARGET_TEMPERATURE, v) ∈ writes_of r <->
   is_number temperature = true
   /\ temperature_to_homekit temperature (wh_unit w) = Ok v
   /\ py_ne v (value (wh_char_current_temp w)) = true)
  /\ ((CHAR_TARGET_TEMPERATURE, v) ∈ writes_of r ->
      (CHAR_TARGET_TEMPERATURE, v)
        ∈ writes_of (run (WaterHeater_update_state new_state) (obj_after r))).
Proof using Type.
  intros temperature r.
  assert (Hiff : forall w0 : WaterHeater,
    (CHAR_TARGET_TEMPERATURE, v)
      ∈ writes_of (run (WaterHeater_update_state new_state) w0) <->
    is_number temperature = true
    /\ temperature_to_homekit temperature (wh_unit w0) = Ok v
    /\ py_ne v (value (wh_char_current_temp w0)) = true).
  { intros w0. subst temperature.
    unfold WaterHeater_update_state, wh_target_temp, wh_display_units,
      wh_target_heat_cool, wh_current_temp.
    split_branches;
      rewrite ?elem_of_cons, ?elem_of_nil;
      (split; [intros H | intros (H1 & H2 & H3)]);
      destruct_or?; simplify_eq; try contradiction; try congruence; auto. }
  split; [apply Hiff |].
  intros Hin. apply Hiff in Hin. apply Hiff.
  destruct (WaterHeater_update_state_frame new_state w)
    as (Htemp & _ & Hunit & _ & _).
  fold r in Htemp, Hunit. rewrite Htemp, Hunit. exact Hin.
Qed.

(** C2, as amended: both threshold blocks compare the converted attribute
    with the value of the heating-threshold characteristic; the block for
    the cooling threshold writes the cooling-threshold characteristic, the
    block for the heating threshold the heating-threshold one. *)
Theorem threshold_blocks_compare_heating (new_state : State)
    (self : Thermostat) (heating cooling : Char) :
  char_heating_thresh_temp self = Some heating ->
  char_cooling_thresh_temp self = Some cooling ->
  (forall cooling_thresh : pyval,
     is_number (attr_get new_state ATTR_TARGET_TEMP_HIGH) = true ->
     temperature_to_homekit (attr_get new_state ATTR_TARGET_TEMP_HIGH)
       (_unit self) = Ok cooling_thresh ->
     run (update_cooling_thresh new_state) self =
     (Ok tt,
      if py_ne (value heating) cooling_thresh
      then (ref_set TRef.cooling_thresh_temp {| value := cooling_thresh |} self,
            [(CHAR_COOLING_THRESHOLD_TEMPERATURE, cooling_thresh)])
      else (self, [])))
  /\ (forall heating_thresh : pyval,
        is_number (attr_get new_state ATTR_TARGET_TEMP_LOW) = true ->
        temperature_to_homekit (attr_get new_state ATTR_TARGET_TEMP_LOW)
          (_unit self) = Ok heating_thresh ->
        run (update_heating_thresh new_state) self =
        (Ok tt,
         if py_ne (value heating) heating_thresh
         then (ref_set TRef.heating_thresh_temp {| value := heating_thresh |} self,
               [(CHAR_HEATING_THRESHOLD_TEMPERATURE, heating_thresh)])
         else (self, []))).
Proof using Type.
  intros Hheat Hcool. split.
  - intros cooling_thresh Hnum Hconv.
    unfold update_cooling_thresh, TRef.cooling_thresh_temp,
      TRef.heating_thresh_temp.
    reduce_method. rewrite Hcool.
    rewrite bool_decide_true by eauto.
    reduce_method. rewrite Hnum.
    reduce_method. rewrite Hconv.
    reduce_method. rewrite Hheat.
    reduce_method.
    destruct (py_ne (value heating) cooling_thresh);
      reduce_method; rewrite ?Hcool, ?Hheat; reflexivity.
  - intros heating_thresh Hnum Hconv.
    unfold update_heating_thresh, TRef.heating_thresh_temp.
    reduce_method. rewrite Hheat.
    rewrite bool_decide_true by eauto.
    reduce_method. rewrite Hnum.
    reduce_method. rewrite Hconv.
    reduce_method. rewrite Hheat.
    reduce_method.
    destruct (py_ne (value heating) heating_thresh);
      reduce_method; rewrite ?Hcool, ?Hheat; reflexivity.
Qed.


(** ** Idempotence of the blocks of [Thermostat.update_state] *)

Lemma local_bind {T A B} (m : M T A) (k : A -> M T B) :
  local m -> (forall a, local (k a)) -> local (m ≫= k).
Proof using Type.
  intros Hm Hk s w. unfold mbind, M_bind.
  rewrite (Hm s w).
  destruct (m (s, [])) as [[a | e] [s1 w1]]; cbn [fst snd].
  - rewrite (Hk a s1 (w ++ w1)%list), (Hk a s1 w1).
    destruct (k a (s1, [])) as [r [s2 w2]]; cbn [fst snd].
    by rewrite app_assoc.
  - reflexivity.
Qed.











Ltac local_block :=
  intros s w; split_branches; cbn [fst snd];
  rewrite ?app_nil_r, ?app_nil_l; reflexivity.

(** *** Update target operation mode *)

Lemma update_target_mode_local (new_state : State) :
  local (update_target_mode new_state).
Proof using Type.
  unfold update_target_mode, TRef.target_heat_cool. local_block.
Qed.



(** *** Set current operation mode *)

Lemma update_current_mode_local (new_state : State) :
  local (update_current_mode new_state).
Proof using Type.
  unfold update_current_mode, TRef.current_heat_cool. local_block.
Qed.



(** *** Update current temperature *)

Lemma update_current_temp_local (new_state : State) :
  local (update_current_temp new_state).
Proof using Type.
  unfold update_current_temp, TRef.current_temp. local_block.
Qed.



(** *** Update current humidity *)

Lemma update_current_humidity_local (new_state : State) :
  local (update_current_humidity new_state).
Proof using Type.
  unfold update_current_humidity, TRef.current_humidity. local_block.
Qed.



(** *** Update target humidity *)

Lemma update_target_humidity_local (new_state : State) :
  local (update_target_humidity new_state).
Proof using Type.
  unfold update_target_humidity, TRef.target_humidity. local_block.
Qed.



(** *** Update cooling threshold temperature *)

Lemma update_cooling_thresh_local (new_state : State) :
  local (update_cooling_thresh new_state).
Proof using Type.
  unfold update_cooling_thresh, TRef.cooling_thresh_temp,
    TRef.heating_thresh_temp.
  local_block.
Qed.


(** *** Update heating threshold temperature *)

Lemma update_heating_thresh_local (new_state : State) :
  local (update_heating_thresh new_state).
Proof using Type.
  unfold update_heating_thresh, TRef.heating_thresh_temp. local_block.
Qed.



(** *** Update target temperature *)

Lemma update_target_temp_local (new_state : State) :
  local (update_target_temp new_state).
Proof using Type.
  unfold update_target_temp, TRef.target_temp, TRef.target_heat_cool.
  local_block.
Qed.



(** *** Update display units *)

Lemma update_display_units_local : local update_display_units.
Proof using Type.
  unfold update_display_units, TRef.display_units. local_block.
Qed.



(** *** The whole method *)

Ltac solve_local :=
  repeat first
    [ apply update_target_mode_local | apply update_current_mode_local
    | apply update_current_temp_local | apply update_current_humidity_local
    | apply update_target_humidity_local | apply update_cooling_thresh_local
    | apply update_heating_thresh_local | apply update_target_temp_local
    | apply update_display_units_local
    | apply local_bind; [| intros _] ].




(** ** More on inbound writes *)

Ltac is_atomic_test x :=
  lazymatch x with
  | context [match _ with _ => _ end] => fail
  | context [if _ then _ else _] => fail
  | _ => idtac
  end.

(** Follow every path of a computation in [result], innermost test first. *)
Ltac split_result :=
  repeat (cbv beta iota zeta delta
            [mbind mret result_bind result_ret rbind fst snd];
          match goal with
          | |- context [let (_, _) := ?p in _] => is_atomic_test p; destruct p
          | |- context [match ?x with Ok _ => _ | Err _ => _ end] =>
              is_atomic_test x; destruct x eqn:?
          | |- context [match ?x with Some _ => _ | None => _ end] =>
              is_atomic_test x; destruct x eqn:?
          | |- context [if ?b then _ else _] =>
              is_atomic_test b; destruct b eqn:?
          end);
  cbv beta iota zeta delta [mbind mret result_bind result_ret rbind fst snd].

(** The same, stage by stage: the outcome of each stage is named and its
    equation kept. *)
Ltac split_stages :=
  repeat (cbv beta iota zeta delta
            [mbind mret result_bind result_ret rbind fst snd];
          match goal with
          | |- context [let (_, _) := ?p in _] => destruct p
          | |- context [match ?x with Ok _ => _ | Err _ => _ end] =>
              destruct x eqn:?
          | |- context [match ?x with Some _ => _ | None => _ end] =>
              destruct x eqn:?
          | |- context [if ?b then _ else _] => destruct b eqn:?
          end);
  cbv beta iota zeta delta [mbind mret result_bind result_ret rbind fst snd].

(** A fact read off one stage's equation alone. *)
Ltac stage_fact H :=
  revert H; clear; split_result; intros ?; simplify_eq;
  rewrite ?lookup_insert_ne by discriminate; auto.

(** X1: the calls a successful [Thermostat._set_chars] makes: at most one
    call to the climate domain, [set_hvac_mode] or [set_temperature], whose
    parameters carry the accessory's entity id, followed by the humidity
    call exactly when the write holds a target humidity. *)
Theorem set_chars_calls_shape (self : Thermostat) (hass_state : State)
    (char_values : gmap char_id pyval) (calls : list service_call) :
  _set_chars self hass_state char_values = Ok calls ->
  exists climate : list service_call,
    calls = (climate ++
             match char_values !! CHAR_TARGET_HUMIDITY with
             | Some v => [set_target_humidity self v]
             | None => []
             end)%list
    /\ (length climate <= 1)%nat
    /\ Forall (fun c : service_call =>
                 call_domain c = DOMAIN_CLIMATE
                 /\ (call_service c = SERVICE_SET_HVAC_MODE_THERMOSTAT
                     \/ call_service c = SERVICE_SET_TEMPERATURE_THERMOSTAT)
                 /\ call_params c !! ATTR_ENTITY_ID
                    = Some (PStr (entity_id self)))
              climate.
Proof using Type.
  unfold _set_chars, has_feature, value_of.
  split_stages; intros H; simplify_eq.
  all: assert (F0 : o = None \/ o = Some SERVICE_SET_HVAC_MODE_THERMOSTAT)
         by stage_fact Heqr0.
  all: assert (F1 : (o0 = o \/ o0 = Some SERVICE_SET_TEMPERATURE_THERMOSTAT)
                    /\ g0 !! CHAR_TARGET_HUMIDITY
                       = char_values !! CHAR_TARGET_HUMIDITY)
         by stage_fact Heqr1.
  all: match type of Heqr2 with
       | _ = Ok (?o1, _, _) =>
           assert (F2 : o1 = o0 \/ o1 = Some SERVICE_SET_TEMPERATURE_THERMOSTAT)
             by stage_fact Heqr2
       end.
  all: destruct F1 as [F1 Fhum]; rewrite Fhum in *; simplify_eq.
  all: clear Heqr0 Heqr1 Heqr2; cbn [app].
  all: match goal with
       | |- exists _, [?c; _] = _ /\ _ => exists [c]
       | |- exists _, [set_target_humidity _ _] = _ /\ _ => exists []
       | |- exists _, [?c] = _ /\ _ => exists [c]
       | |- exists _, [] = _ /\ _ => exists []
       end.
  all: split; try reflexivity.
  all: split; try (cbn; lia).
  all: try apply Forall_nil.
  all: constructor; try apply Forall_nil.
  all: cbn [call_domain call_service call_params].
  all: split; try reflexivity.
  all: split; try apply lookup_insert_eq.
  all: destruct F2 as [F2 | F2], F1 as [F1 | F1], F0 as [F0 | F0];
       simplify_eq; auto.
Qed.

(** Lookups in a write given by its keys. *)
Ltac lookup_keys :=
  repeat first
    [ rewrite lookup_singleton_eq
    | rewrite lookup_insert_eq
    | rewrite lookup_singleton_ne by discriminate
    | rewrite lookup_insert_ne by discriminate ].

(** X2: a write of a target mode that differs from the image of the
    entity's state and is not a key of [self.hc_homekit_to_hass] raises
    [KeyError], whatever else the write holds. *)
Theorem set_chars_unsupported_mode (self : Thermostat) (hass_state : State)
    (char_values : gmap char_id pyval) (v : pyval) (homekit_hvac_mode : Z) :
  subscript (dict_get (state hass_state) HC_HASS_TO_HOMEKIT)
    = Ok homekit_hvac_mode ->
  char_values !! CHAR_TARGET_HEATING_COOLING = Some v ->
  py_ne v (PInt homekit_hvac_mode) = true ->
  (forall z : Z, int_key v = Some z -> hc_homekit_to_hass self !! z = None) ->
  _set_chars self hass_state char_values = Err KeyError.
Proof using Type.
  intros Hmode Hv Hne Hkey. unfold _set_chars. rewrite Hmode.
  cbn [mbind result_bind rbind]. rewrite Hv, Hne.
  unfold int_dict_getitem.
  destruct (int_key v) as [z |] eqn:Hz; [| reflexivity].
  rewrite (Hkey z eq_refl). reflexivity.
Qed.

(** X3: a write of the target temperature alone makes no call when the
    entity lacks the single-setpoint feature and either lacks the range
    feature too or is in a mode other than Heat and Cool: the value is
    dropped. *)
Theorem set_chars_target_temp_dropped (self : Thermostat) (hass_state : State)
    (t : pyval) (homekit_hvac_mode : Z) :
  let features :=
    attr_get_default hass_state ATTR_SUPPORTED_FEATURES (PInt 0) in
  subscript (dict_get (state hass_state) HC_HASS_TO_HOMEKIT)
    = Ok homekit_hvac_mode ->
  has_feature features SUPPORT_TARGET_TEMPERATURE = Ok false ->
  has_feature features SUPPORT_TARGET_TEMPERATURE_RANGE = Ok false
  \/ (has_feature features SUPPORT_TARGET_TEMPERATURE_RANGE = Ok true
      /\ homekit_hvac_mode <> HC_HEAT_COOL_HEAT
      /\ homekit_hvac_mode <> HC_HEAT_COOL_COOL) ->
  _set_chars self hass_state {[CHAR_TARGET_TEMPERATURE := t]} = Ok [].
Proof using Type.
  intros features Hmode Hsingle Hrange. subst features.
  unfold _set_chars. rewrite Hmode. cbn [mbind result_bind rbind].
  lookup_keys. cbn [mbind result_bind rbind].
  rewrite Hsingle. cbn [mbind result_bind rbind].
  destruct Hrange as [-> | (-> & Hheat & Hcool)]; cbn [mbind result_bind rbind].
  - lookup_keys. reflexivity.
  - apply Z.eqb_neq in Hheat, Hcool. rewrite Hheat, Hcool.
    cbn [andb mbind result_bind rbind].
    lookup_keys. reflexivity.
Qed.

(** X4: for an entity with the range feature only, a target temperature
    written while the entity's state maps to Heat is treated as a write of
    the heating threshold (and to Cool, of the cooling threshold) when the
    write holds no such threshold itself.  The mode that decides is the one
    of the entity's state, not a target mode of the same write. *)
Theorem set_chars_target_temp_redirect (self : Thermostat)
    (hass_state : State) (char_values : gmap char_id pyval) (t : pyval) :
  let features :=
    attr_get_default hass_state ATTR_SUPPORTED_FEATURES (PInt 0) in
  char_values !! CHAR_TARGET_TEMPERATURE = Some t ->
  has_feature features SUPPORT_TARGET_TEMPERATURE = Ok false ->
  has_feature features SUPPORT_TARGET_TEMPERATURE_RANGE = Ok true ->
  (subscript (dict_get (state hass_state) HC_HASS_TO_HOMEKIT)
     = Ok HC_HEAT_COOL_HEAT ->
   char_values !! CHAR_HEATING_THRESHOLD_TEMPERATURE = None ->
   _set_chars self hass_state char_values
   = _set_chars self hass_state
       (<[CHAR_HEATING_THRESHOLD_TEMPERATURE := t]> char_values))
  /\ (subscript (dict_get (state hass_state) HC_HASS_TO_HOMEKIT)
        = Ok HC_HEAT_COOL_COOL ->
      char_values !! CHAR_COOLING_THRESHOLD_TEMPERATURE = None ->
      _set_chars self hass_state char_values
      = _set_chars self hass_state
          (<[CHAR_COOLING_THRESHOLD_TEMPERATURE := t]> char_values)).
Proof using Type.
  intros features Ht Hsingle Hrange. subst features.
  split; intros Hmode Hnone; unfold _set_chars; rewrite Hmode;
    repeat
      (progress
         (cbn [mbind result_bind rbind Z.eqb Pos.eqb HC_HEAT_COOL_HEAT
               HC_HEAT_COOL_COOL andb negb];
          rewrite ?(lookup_insert_ne char_values _ CHAR_TARGET_HEATING_COOLING)
            by discriminate;
          rewrite ?(lookup_insert_ne char_values _ CHAR_TARGET_TEMPERATURE)
            by discriminate;
          rewrite ?(lookup_insert_ne char_values _ CHAR_TARGET_HUMIDITY)
            by discriminate;
          rewrite ?Ht, ?Hsingle, ?Hrange, ?Hnone;
          rewrite
            ?(lookup_insert_eq char_values CHAR_HEATING_THRESHOLD_TEMPERATURE);
          rewrite
            ?(lookup_insert_eq char_values CHAR_COOLING_THRESHOLD_TEMPERATURE);
          rewrite ?(bool_decide_true (is_Some (Some t))) by eauto;
          rewrite ?(bool_decide_false (is_Some None))
            by (intros [? ?]; discriminate)));
    reflexivity.
Qed.


(** X6: a threshold write to a thermostat that has no cooling-threshold
    characteristic raises [AttributeError] on [self.char_cooling_thresh_temp.value]. *)
Theorem set_chars_threshold_without_chars (self : Thermostat)
    (hass_state : State) (char_values : gmap char_id pyval)
    (homekit_hvac_mode : Z) :
  subscript (dict_get (state hass_state) HC_HASS_TO_HOMEKIT)
    = Ok homekit_hvac_mode ->
  char_values !! CHAR_TARGET_HEATING_COOLING = None ->
  char_values !! CHAR_TARGET_TEMPERATURE = None ->
  is_Some (char_values !! CHAR_HEATING_THRESHOLD_TEMPERATURE)
  \/ is_Some (char_values !! CHAR_COOLING_THRESHOLD_TEMPERATURE) ->
  char_cooling_thresh_temp self = None ->
  _set_chars self hass_state char_values = Err AttributeError.
Proof using Type.
  intros Hmode Hnomode Hnotemp Hthresh Hnone.
  unfold _set_chars. rewrite Hmode. cbn [mbind result_bind rbind].
  rewrite Hnomode, Hnotemp. cbn [mbind result_bind rbind].
  assert (Hor : bool_decide
                  (is_Some (char_values !! CHAR_HEATING_THRESHOLD_TEMPERATURE))
                || bool_decide
                     (is_Some (char_values !! CHAR_COOLING_THRESHOLD_TEMPERATURE))
                = true).
  { apply orb_true_iff.
    destruct Hthresh as [H | H]; [left | right]; by apply bool_decide_eq_true. }
  rewrite Hor, Hnone. reflexivity.
Qed.

(** X7: a write of a new target mode together with a target temperature,
    on an entity with the single-setpoint feature, makes one call: the
    service is [set_temperature], which replaces [set_hvac_mode], and its
    parameters carry both the mode and the temperature. *)
Theorem set_chars_mode_and_temperature (self : Thermostat)
    (hass_state : State) (v t temperature : pyval) (homekit_hvac_mode : Z)
    (hass_value : string) :
  let features :=
    attr_get_default hass_state ATTR_SUPPORTED_FEATURES (PInt 0) in
  subscript (dict_get (state hass_state) HC_HASS_TO_HOMEKIT)
    = Ok homekit_hvac_mode ->
  py_ne v (PInt homekit_hvac_mode) = true ->
  int_dict_getitem (hc_homekit_to_hass self) v = Ok hass_value ->
  has_feature features SUPPORT_TARGET_TEMPERATURE = Ok true ->
  temperature_to_states t (_unit self) = Ok temperature ->
  _set_chars self hass_state
    (<[CHAR_TARGET_TEMPERATURE := t]> {[CHAR_TARGET_HEATING_COOLING := v]})
  = Ok [ {| call_domain := DOMAIN_CLIMATE;
            call_service := SERVICE_SET_TEMPERATURE_THERMOSTAT;
            call_params :=
              <[ATTR_ENTITY_ID := PStr (entity_id self)]>
                (<[ATTR_TEMPERATURE := temperature]>
                   {[ATTR_HVAC_MODE := PStr hass_value]});
            call_description :=
              [EvChar CHAR_TARGET_HEATING_COOLING v;
               EvChar CHAR_TARGET_TEMPERATURE t] |} ].
Proof using Type.
  intros features Hmode Hne Hkey Hsingle Hconv. subst features.
  unfold _set_chars. rewrite Hmode. cbn [mbind result_bind rbind].
  lookup_keys. rewrite Hne, Hkey. cbn [mbind result_bind rbind].
  lookup_keys. rewrite Hsingle. cbn [mbind result_bind rbind].
  rewrite Hconv. cbn [mbind result_bind rbind].
  lookup_keys.
  rewrite !(bool_decide_false (is_Some None)) by (intros [? ?]; discriminate).
  cbn [orb mbind result_bind rbind]. lookup_keys. reflexivity.
Qed.

(** ** More on [Thermostat.update_state] *)

Lemma run_seq {T} (m k : M T unit) (s : T) :
  local k ->
  run (m;; k) s =
  match run m s with
  | (Ok _, (s1, w1)) =>
      ((run k s1).1, ((run k s1).2.1, (w1 ++ (run k s1).2.2)%list))
  | (Err e, σ) => (Err e, σ)
  end.
Proof using Type.
  intros Hk. unfold run, mbind, M_bind.
  destruct (m (s, [])) as [[[] | e] [s1 w1]]; [| reflexivity].
  apply Hk.
Qed.

Lemma local_ret {T} : local (mret tt : M T unit).
Proof using Type. intros s w. cbn. by rewrite app_nil_r. Qed.

Lemma seq_all_local {T} (blocks : list (M T unit)) :
  Forall local blocks -> local (seq_all blocks).
Proof using Type.
  induction 1 as [| b rest Hb Hrest IH]; [apply local_ret |].
  cbn [seq_all]. destruct rest as [| b' rest']; [exact Hb |].
  apply local_bind; [exact Hb | intros _; exact IH].
Qed.

Ltac block_spec_tac :=
  constructor;
  [ solve_local
  | intros s; split_branches; repeat split
  | intros s c' Hne; split_branches; destruct c'; try reflexivity; congruence
  | intros s; split_branches; cbn [char_of]; split; intros Hs;
    first [ exact Hs | eauto | destruct Hs; congruence ]
  | intros s x; split_branches; cbn [char_of];
    rewrite ?elem_of_cons, ?elem_of_nil; intros Hx; destruct_or?;
    try contradiction; subst x; repeat split
  | intros s x; split_branches; cbn [char_of];
    rewrite ?elem_of_cons, ?elem_of_nil; intros Hx Hc; destruct_or?;
    try contradiction; try congruence; simplify_eq;
    first [ solve [eauto]
          | eexists; split; [first [reflexivity | eassumption] | eassumption] ] ].

Lemma update_target_mode_spec (new_state : State) :
  block_spec CHAR_TARGET_HEATING_COOLING (update_target_mode new_state).
Proof using Type.
  unfold update_target_mode, TRef.target_heat_cool. block_spec_tac.
Qed.

Lemma update_current_mode_spec (new_state : State) :
  block_spec CHAR_CURRENT_HEATING_COOLING (update_current_mode new_state).
Proof using Type.
  unfold update_current_mode, TRef.current_heat_cool. block_spec_tac.
Qed.

Lemma update_current_temp_spec (new_state : State) :
  block_spec CHAR_CURRENT_TEMPERATURE (update_current_temp new_state).
Proof using Type.
  unfold update_current_temp, TRef.current_temp. block_spec_tac.
Qed.

Lemma update_current_humidity_spec (new_state : State) :
  block_spec CHAR_CURRENT_HUMIDITY (update_current_humidity new_state).
Proof using Type.
  unfold update_current_humidity, TRef.current_humidity. block_spec_tac.
Qed.

Lemma update_target_humidity_spec (new_state : State) :
  block_spec CHAR_TARGET_HUMIDITY (update_target_humidity new_state).
Proof using Type.
  unfold update_target_humidity, TRef.target_humidity. block_spec_tac.
Qed.

Lemma update_cooling_thresh_spec (new_state : State) :
  block_spec CHAR_COOLING_THRESHOLD_TEMPERATURE
    (update_cooling_thresh new_state).
Proof using Type.
  unfold update_cooling_thresh, TRef.cooling_thresh_temp,
    TRef.heating_thresh_temp.
  block_spec_tac.
Qed.

Lemma update_heating_thresh_spec (new_state : State) :
  block_spec CHAR_HEATING_THRESHOLD_TEMPERATURE
    (update_heating_thresh new_state).
Proof using Type.
  unfold update_heating_thresh, TRef.heating_thresh_temp. block_spec_tac.
Qed.

Lemma update_target_temp_spec (new_state : State) :
  block_spec CHAR_TARGET_TEMPERATURE (update_target_temp new_state).
Proof using Type.
  unfold update_target_temp, TRef.target_temp, TRef.target_heat_cool.
  block_spec_tac.
Qed.

Lemma update_display_units_spec :
  block_spec CHAR_TEMP_DISPLAY_UNITS update_display_units.
Proof using Type.
  unfold update_display_units, TRef.display_units. block_spec_tac.
Qed.

Lemma block_seq_spec (c : char_id) (b : M Thermostat unit) :
  block_spec c b -> seq_spec [c] b.
Proof using Type.
  intros Hb. constructor.
  - apply (block_config _ _ Hb).
  - intros s c' Hc'. apply (block_frame _ _ Hb).
    intros ->. apply Hc'. left.
  - intros s c'. destruct (decide (c' = c)) as [-> | Hne].
    + apply (block_own _ _ Hb).
    + by rewrite (block_frame _ _ Hb s c' Hne).
  - intros s. destruct (writes_of (run b s)) as [| x l] eqn:E; [constructor |].
    destruct (block_writes _ _ Hb s x) as [Hw _]; [rewrite E; left |].
    rewrite Hw in E. simplify_eq. cbn. apply NoDup_singleton.
  - intros s x Hx.
    destruct (block_writes _ _ Hb s x Hx) as (_ & Hid & Hval).
    rewrite Hid. split; [left |]. split; [exact Hval |].
    intros Hc. apply (block_change _ _ Hb s x Hx). congruence.
Qed.

Lemma seq_spec_ret : seq_spec [] (mret tt).
Proof using Type.
  constructor.
  - intros s. cbn. repeat split.
  - reflexivity.
  - reflexivity.
  - intros s. cbn. constructor.
  - intros s x Hx. cbn in Hx. by apply elem_of_nil in Hx.
Qed.

Lemma seq_spec_bind (c : char_id) (b : M Thermostat unit)
    (ids : list char_id) (k : M Thermostat unit) :
  block_spec c b -> seq_spec ids k -> local k -> c ∉ ids ->
  seq_spec (c :: ids) (b;; k).
Proof using Type.
  intros Hb Hk Hl Hc.
  pose proof (block_seq_spec c b Hb) as Hb1.
  assert (Hrun : forall s,
    (exists e, (run b s).1 = Err e
       /\ obj_after (run (b;; k) s) = obj_after (run b s)
       /\ writes_of (run (b;; k) s) = writes_of (run b s))
    \/ (obj_after (run (b;; k) s) = obj_after (run k (obj_after (run b s)))
        /\ writes_of (run (b;; k) s) =
           (writes_of (run b s)
            ++ writes_of (run k (obj_after (run b s))))%list)).
  { intros s. rewrite (run_seq b k s Hl).
    destruct (run b s) as [[[] | e] [s1 w1]]; [right | left; exists e];
      repeat split. }
  constructor.
  - intros s. cbv zeta.
    destruct (Hrun s) as [(e & _ & -> & _) | [-> _]].
    + apply (block_config _ _ Hb).
    + pose proof (block_config _ _ Hb s) as H1.
      pose proof (seq_config _ _ Hk (obj_after (run b s))) as H2.
      cbv zeta in H1, H2. destruct H1 as (<- & <- & <- & <-). exact H2.
  - intros s c' Hc'.
    apply not_elem_of_cons in Hc' as [Hne Hc'].
    destruct (Hrun s) as [(e & _ & -> & _) | [-> _]].
    + by apply (block_frame _ _ Hb).
    + rewrite (seq_frame _ _ Hk _ _ Hc'). by apply (block_frame _ _ Hb).
  - intros s c'.
    destruct (Hrun s) as [(e & _ & -> & _) | [-> _]].
    + apply (seq_present _ _ Hb1).
    + rewrite (seq_present _ _ Hk). apply (seq_present _ _ Hb1).
  - intros s.
    destruct (Hrun s) as [(e & _ & _ & ->) | [_ ->]].
    + apply (seq_once _ _ Hb1).
    + rewrite fmap_app. apply NoDup_app. split; [apply (seq_once _ _ Hb1) |].
      split; [| apply (seq_once _ _ Hk)].
      intros i Hi1 Hi2.
      apply list_elem_of_fmap in Hi1 as (x1 & -> & Hx1).
      apply list_elem_of_fmap in Hi2 as (x2 & Heq & Hx2).
      destruct (block_writes _ _ Hb s x1 Hx1) as (_ & Hid & _).
      destruct (seq_writes _ _ Hk _ x2 Hx2) as (Hin & _).
      congruence.
  - intros s x Hx.
    destruct (Hrun s) as [(e & _ & Ho & Hw) | [Ho Hw]]; rewrite Hw in Hx;
      rewrite Ho.
    + destruct (seq_writes _ _ Hb1 s x Hx) as (Hin & Hval & Hch).
      split; [| by split].
      apply list_elem_of_singleton in Hin. rewrite Hin. left.
    + apply elem_of_app in Hx as [Hx | Hx].
      * destruct (block_writes _ _ Hb s x Hx) as (_ & Hid & Hval).
        split; [rewrite Hid; left |]. split.
        -- rewrite (seq_frame _ _ Hk) by congruence. by rewrite Hid.
        -- intros Hne. rewrite Hid in *.
           by apply (block_change _ _ Hb s x Hx).
      * destruct (seq_writes _ _ Hk _ x Hx) as (Hin & Hval & Hch).
        split; [by right |]. split; [exact Hval |].
        intros Hne. destruct (Hch Hne) as (old & Hold & Hneq).
        exists old. split; [| exact Hneq].
        rewrite <- Hold. symmetry. apply (block_frame _ _ Hb). congruence.
Qed.

Lemma seq_all_spec (blocks : list (char_id * M Thermostat unit)) :
  NoDup blocks.*1 ->
  Forall (fun p => block_spec p.1 p.2) blocks ->
  seq_spec blocks.*1 (seq_all blocks.*2).
Proof using Type.
  induction blocks as [| [c b] rest IH]; intros Hnd Hall.
  - apply seq_spec_ret.
  - apply NoDup_cons in Hnd as [Hc Hnd].
    apply Forall_cons in Hall as [Hb Hall]. cbn in Hb.
    destruct rest as [| [c' b'] rest'].
    + cbn. by apply block_seq_spec.
    + change (seq_spec (c :: ((c', b') :: rest').*1)
                (b;; seq_all ((c', b') :: rest').*2)).
      apply seq_spec_bind; [exact Hb | by apply IH | | exact Hc].
      apply seq_all_local. apply Forall_fmap.
      eapply Forall_impl; [exact Hall |]. intros [c0 b0] H0.
      apply (block_local _ _ H0).
Qed.

Lemma update_state_seq_spec (new_state : State) :
  seq_spec (update_state_blocks new_state).*1 (update_state new_state).
Proof using Type.
  change (update_state new_state)
    with (seq_all (update_state_blocks new_state).*2).
  apply seq_all_spec.
  - cbn. apply NoDup_ListNoDup.
    repeat (constructor; [cbn; clear; intros H; repeat destruct H as [H | H]; discriminate || exact H |]). constructor.
  - repeat (apply Forall_cons; split); try apply Forall_nil; cbn;
      try exact I.
    + apply update_target_mode_spec.
    + apply update_current_mode_spec.
    + apply update_current_temp_spec.
    + apply update_current_humidity_spec.
    + apply update_target_humidity_spec.
    + apply update_cooling_thresh_spec.
    + apply update_heating_thresh_spec.
    + apply update_target_temp_spec.
    + apply update_display_units_spec.
Qed.






(** ** What a successful [Thermostat.update_state] leaves behind *)















(** X9: whatever its outcome, [Thermostat.update_state] keeps the entity
    id, the unit, the list of characteristic names and the reverse mode map,
    and neither creates nor removes a characteristic. *)
Theorem update_state_keeps_shape (new_state : State) (s : Thermostat) :
  let s' := obj_after (run (update_state new_state) s) in
  entity_id s' = entity_id s /\ _unit s' = _unit s /\ chars s' = chars s
  /\ hc_homekit_to_hass s' = hc_homekit_to_hass s
  /\ forall c : char_id, is_Some (char_of c s') <-> is_Some (char_of c s).
Proof using Type.
  cbv zeta. pose proof (update_state_seq_spec new_state) as Hspec.
  destruct (seq_config _ _ Hspec s) as (He & Hu & Hc & Hm).
  repeat split; try assumption; apply (seq_present _ _ Hspec).
Qed.




(** ** More on the WaterHeater accessory *)

Lemma WaterHeater_update_state_mode (new_state : State) (w : WaterHeater) :
  value (wh_char_target_heat_cool w) = PInt 1 ->
  let r := run (WaterHeater_update_state new_state) w in
  wh_char_target_heat_cool (obj_after r) = wh_char_target_heat_cool w
  /\ Forall (fun wr : write => wr.1 <> CHAR_TARGET_HEATING_COOLING)
       (writes_of r).
Proof using Type.
  intros Hone. cbv zeta.
  unfold WaterHeater_update_state, wh_target_temp, wh_display_units,
    wh_target_heat_cool, wh_current_temp.
  split_branches;
    cbn [wh_char_target_heat_cool] in *;
    try (rewrite Hone in *; discriminate);
    (split; [reflexivity | repeat constructor; discriminate]).
Qed.

Lemma WaterHeater_init_mode (entity unit : string) (hass_state : State)
    (w : WaterHeater) :
  WaterHeater_init entity unit hass_state = Ok w ->
  value (wh_char_target_heat_cool w) = PInt 1.
Proof using Type.
  unfold WaterHeater_init.
  destruct (WaterHeater_get_temperature_range unit hass_state)
    as [[min_temp max_temp] | e]; [| discriminate].
  cbn [mbind result_bind rbind].
  match goal with
  | |- context [run ?m ?self] =>
      pose proof (WaterHeater_update_state_mode hass_state self eq_refl)
        as [Hmode _];
      destruct (run m self) as [[u | e] [w' log]]
  end; [| discriminate].
  intros [= <-]. unfold obj_after in Hmode. cbn [fst snd] in Hmode.
  rewrite Hmode. reflexivity.
Qed.

Lemma WaterHeater_updates_mode (snapshots : list State)
    (acc : WaterHeater * list write) :
  let f := fun (acc : WaterHeater * list write) new_state =>
             let r := run (WaterHeater_update_state new_state) acc.1 in
             (obj_after r, (acc.2 ++ writes_of r)%list) in
  value (wh_char_target_heat_cool acc.1) = PInt 1 ->
  Forall (fun wr : write => wr.1 <> CHAR_TARGET_HEATING_COOLING) acc.2 ->
  value (wh_char_target_heat_cool (foldl f acc snapshots).1) = PInt 1
  /\ Forall (fun wr : write => wr.1 <> CHAR_TARGET_HEATING_COOLING)
       (foldl f acc snapshots).2.
Proof using Type.
  intros f. revert acc.
  induction snapshots as [| new_state snapshots IH]; intros acc Hone Hlog.
  - split; assumption.
  - cbn [foldl].
    destruct (WaterHeater_update_state_mode new_state acc.1 Hone)
      as [Hmode Hw].
    apply IH.
    + unfold f. cbn [fst]. rewrite Hmode. exact Hone.
    + unfold f. cbn [snd]. apply Forall_app. split; assumption.
Qed.

(** X14: a water heater stays in Heat.  From construction on and through
    any sequence of [update_state] calls, the target-mode characteristic
    holds 1 and is never written. *)
Theorem water_heater_mode_stays_heat (entity unit : string)
    (hass_state : State) (w : WaterHeater) (snapshots : list State) :
  WaterHeater_init entity unit hass_state = Ok w ->
  value (wh_char_target_heat_cool (WaterHeater_updates snapshots w).1) = PInt 1
  /\ Forall (fun wr : write => wr.1 <> CHAR_TARGET_HEATING_COOLING)
       (WaterHeater_updates snapshots w).2.
Proof using Type.
  intros Hinit. apply WaterHeater_init_mode in Hinit.
  destruct (WaterHeater_updates_mode snapshots (w, []) Hinit)
    as [Hmode Hlog]; [constructor |].
  split; assumption.
Qed.

Lemma HC_HOMEKIT_TO_HASS_none (z : Z) :
  ~ 0 <= z <= 3 -> HC_HOMEKIT_TO_HASS !! z = None.
Proof using Type.
  intros Hz.
  unfold HC_HOMEKIT_TO_HASS, reverse_dict, HC_HASS_TO_HOMEKIT. cbn.
  rewrite !lookup_insert_ne
    by (unfold HC_HEAT_COOL_OFF, HC_HEAT_COOL_HEAT, HC_HEAT_COOL_COOL,
          HC_HEAT_COOL_AUTO; lia).
  apply lookup_empty.
Qed.

(** X15: [WaterHeater.set_heat_cool] answers every request with Heat.  The
    value 1 changes nothing; 0, 2 and 3 leave the target-mode characteristic
    equal to 1, writing 1 when it held something else; any other value
    raises [KeyError] before anything is written.  Nothing but the target
    mode is ever touched. *)
Theorem water_heater_set_heat_cool (v : pyval) (w : WaterHeater) :
  let r := run (WaterHeater_set_heat_cool v) w in
  let mode := wh_char_target_heat_cool in
  match int_key v with
  | Some 1 => r = (Ok tt, (w, []))
  | Some (0 | 2 | 3) =>
      r.1 = Ok tt
      /\ py_eq (value (mode (obj_after r))) (PInt 1) = true
      /\ (if py_ne (value (mode w)) (PInt 1)
          then writes_of r = [(CHAR_TARGET_HEATING_COOLING, PInt 1)]
               /\ obj_after r = ref_set wh_target_heat_cool {| value := PInt 1 |} w
          else r = (Ok tt, (w, [])))
  | _ => r = (Err KeyError, (w, []))
  end.
Proof using Type.
  cbv zeta.
  unfold WaterHeater_set_heat_cool, wh_target_heat_cool, int_dict_getitem.
  destruct (int_key v) as [z |]; [| reflexivity].
  reduce_method.
  destruct z as [| [p | p |] | p]; try destruct p as [p | p |].
  all: try (rewrite HC_HOMEKIT_TO_HASS_none by lia; reflexivity).
  - replace (HC_HOMEKIT_TO_HASS !! 0) with (Some HVAC_MODE_OFF)
      by reflexivity.
    cbn. destruct (py_ne (value (wh_char_target_heat_cool w)) (PInt 1)) eqn:E;
      cbn; repeat split; try reflexivity.
    unfold py_ne in E. apply negb_false_iff in E. exact E.
  - replace (HC_HOMEKIT_TO_HASS !! 3) with (Some HVAC_MODE_HEAT_COOL)
      by reflexivity.
    cbn. destruct (py_ne (value (wh_char_target_heat_cool w)) (PInt 1)) eqn:E;
      cbn; repeat split; try reflexivity.
    unfold py_ne in E. apply negb_false_iff in E. exact E.
  - replace (HC_HOMEKIT_TO_HASS !! 2) with (Some HVAC_MODE_FAN_ONLY)
      by reflexivity.
    cbn. destruct (py_ne (value (wh_char_target_heat_cool w)) (PInt 1)) eqn:E;
      cbn; repeat split; try reflexivity.
    unfold py_ne in E. apply negb_false_iff in E. exact E.
  - replace (HC_HOMEKIT_TO_HASS !! 1) with (Some HVAC_MODE_HEAT)
      by reflexivity.
    reflexivity.
Qed.



(** ** Order of the temperature range *)

Lemma py_round_monotone (x y : Q) :
  (x <= y)%Q -> py_round x <= py_round y.
Proof using Type.
  intros Hxy. unfold py_round.
  pose proof (Qfloor_resp_le _ _ Hxy) as Hf.
  pose proof (Qfloor_le x) as Hx0. pose proof (Qfloor_le y) as Hy0.
  destruct (Z.eq_dec (Qfloor x) (Qfloor y)) as [E | N].
  - rewrite <- E in *.
    destruct (Qcompare_spec (x - inject_Z (Qfloor x)) (1 # 2)) as [Ex | Lx | Gx];
      destruct (Qcompare_spec (y - inject_Z (Qfloor x)) (1 # 2)) as [Ey | Ly | Gy];
      destruct (Z.even (Qfloor x)); try lia; exfalso; lra.
  - assert (Hlt : Qfloor x < Qfloor y) by lia.
    destruct ((x - inject_Z (Qfloor x)) ?= (1 # 2))%Q;
      destruct ((y - inject_Z (Qfloor y)) ?= (1 # 2))%Q;
      destruct (Z.even (Qfloor x)); destruct (Z.even (Qfloor y)); lia.
Qed.

Lemma nearest_half_monotone (x y : Q) :
  (x <= y)%Q -> (nearest_half x <= nearest_half y)%Q.
Proof using Type.
  intros Hxy. unfold nearest_half.
  assert (H2 : (x * 2 <= y * 2)%Q) by lra.
  apply py_round_monotone in H2. rewrite Zle_Qle in H2.
  set (a := inject_Z (py_round (x * 2))) in *.
  set (b := inject_Z (py_round (y * 2))) in *.
  assert (Ea : (a / 2 == a * (1 # 2))%Q) by (unfold Qdiv; reflexivity).
  assert (Eb : (b / 2 == b * (1 # 2))%Q) by (unfold Qdiv; reflexivity).
  rewrite Ea, Eb. lra.
Qed.

(** X17: the temperature range keeps its order under rounding: when the
    bound the minimum is rounded from is not above the one the maximum is
    rounded from, [get_temperature_range] returns a minimum that is not above
    the maximum.  The range [Thermostat.__init__] declares, with its minimum
    raised to 10, is in order when the unrounded maximum is at least 10, and
    out of order (minimum 10 above the maximum) when it is below 9.75. *)
Theorem temperature_range_ordered (self : Thermostat) (hass_state : State)
    (vmin vmax : pyval) (xmin xmax : Q) :
  range_bound self hass_state ATTR_MAX_TEMP DEFAULT_MAX_TEMP = Ok vmax ->
  num_of vmax = Some xmax ->
  range_bound self hass_state ATTR_MIN_TEMP DEFAULT_MIN_TEMP = Ok vmin ->
  num_of vmin = Some xmin ->
  (xmin <= xmax)%Q ->
  exists (rmin rmax : Q) (lo : pyval) (qlo : Q),
    get_temperature_range self hass_state = Ok (PFloat rmin, PFloat rmax)
    /\ (rmin <= rmax)%Q
    /\ init_temperature_range self hass_state = Ok (lo, PFloat rmax)
    /\ num_of lo = Some qlo
    /\ ((10 <= xmax)%Q -> (qlo <= rmax)%Q)
    /\ ((xmax < 39 # 4)%Q -> (rmax < qlo)%Q).
Proof using Type.
  intros Hmax Hxmax Hmin Hxmin Hle.
  assert (Hrange : get_temperature_range self hass_state
                   = Ok (PFloat (Qred (nearest_half xmin)),
                         PFloat (Qred (nearest_half xmax)))).
  { unfold get_temperature_range. unfold range_bound in Hmax, Hmin.
    rewrite Hmax. cbn [mbind result_bind rbind].
    unfold round_half. rewrite Hxmax. cbn [mbind result_bind rbind].
    rewrite Hmin. cbn [mbind result_bind rbind].
    rewrite Hxmin. reflexivity. }
  destruct (py_max_floor (Qred (nearest_half xmin))) as (lo & q & Hlo & Hq & E).
  exists (Qred (nearest_half xmin)), (Qred (nearest_half xmax)), lo, q.
  pose proof (Qred_correct (nearest_half xmin)) as Rmin.
  pose proof (Qred_correct (nearest_half xmax)) as Rmax.
  pose proof (nearest_half_monotone xmin xmax Hle) as Hmono.
  split; [exact Hrange |]. split; [lra |].
  split.
  { unfold init_temperature_range. rewrite Hrange.
    cbn [mbind result_bind rbind]. rewrite Hlo. reflexivity. }
  split; [exact Hq |]. split.
  - intros H10. rewrite E.
    apply (nearest_half_monotone 10 xmax) in H10.
    assert (E10 : (nearest_half 10 == 10)%Q) by reflexivity.
    apply Q.max_lub; lra.
  - intros Hlow. pose proof (nearest_half_near xmax) as Hnear.
    apply Qabs_Qle_condition in Hnear.
    apply Qlt_le_trans with (y := 10%Q); [lra |].
    rewrite E. apply Q.le_max_r.
Qed.

(** X18: the range of a water heater.  Each bound is the converted
    attribute, or the default when the attribute is missing or falsy,
    rounded to the nearest multiple of 0.5 (at most 0.25 away); the order of
    the two bounds is kept, and no floor is applied. *)
Theorem water_heater_range_rounding (unit : string) (hass_state : State)
    (vmin vmax : pyval) (xmin xmax : Q) :
  let bound (key : attr) (dflt : pyval) :=
    if truthy (attr_get hass_state key)
    then temperature_to_homekit (attr_get hass_state key) unit
    else Ok dflt in
  bound ATTR_MAX_TEMP DEFAULT_MAX_TEMP_WATER_HEATER = Ok vmax ->
  num_of vmax = Some xmax ->
  bound ATTR_MIN_TEMP DEFAULT_MIN_TEMP_WATER_HEATER = Ok vmin ->
  num_of vmin = Some xmin ->
  let rmin := nearest_half xmin in
  let rmax := nearest_half xmax in
  WaterHeater_get_temperature_range unit hass_state
    = Ok (PFloat (Qred rmin), PFloat (Qred rmax))
  /\ (exists k : Z, (rmin == inject_Z k / 2)%Q)
  /\ (exists k : Z, (rmax == inject_Z k / 2)%Q)
  /\ (Qabs (rmin - xmin) <= 1 # 4)%Q
  /\ (Qabs (rmax - xmax) <= 1 # 4)%Q
  /\ ((xmin <= xmax)%Q -> (rmin <= rmax)%Q).
Proof using Type.
  cbv zeta. intros Hmax Hxmax Hmin Hxmin.
  split.
  { unfold WaterHeater_get_temperature_range.
    rewrite Hmax. cbn [mbind result_bind rbind].
    unfold round_half. rewrite Hxmax. cbn [mbind result_bind rbind].
    rewrite Hmin. cbn [mbind result_bind rbind].
    rewrite Hxmin. reflexivity. }
  repeat split.
  - apply nearest_half_step.
  - apply nearest_half_step.
  - apply nearest_half_near.
  - apply nearest_half_near.
  - apply nearest_half_monotone.
Qed.

(** ** Construction of a Thermostat and exceptions of [update_state] *)

Lemma well_formed_seq (ids : list char_id) (m : M Thermostat unit)
    (s : Thermostat) :
  seq_spec ids m -> well_formed s -> well_formed (obj_after (run m s)).
Proof using Type.
  intros Hm [Hchars Hboth].
  pose proof (seq_present _ _ Hm s) as Hp.
  destruct (seq_config _ _ Hm s) as (_ & _ & Hc & _).
  split.
  - intros c' Hc'. rewrite Hc, (Hp c'). by apply Hchars.
  - rewrite (Hp CHAR_COOLING_THRESHOLD_TEMPERATURE),
      (Hp CHAR_HEATING_THRESHOLD_TEMPERATURE). exact Hboth.
Qed.













Lemma configured_present (c : char_id) (l : list char_id) (v : pyval) :
  c ∈ l <->
  is_Some (if bool_decide (c ∈ l) then Some {| value := v |} else None).
Proof using Type.
  destruct (decide (c ∈ l)) as [Hin | Hout].
  - rewrite bool_decide_true by exact Hin. split; [eauto | intros _; exact Hin].
  - rewrite bool_decide_false by exact Hout.
    split; [intros Hin; contradiction | intros [x Hx]; discriminate].
Qed.

(** X20: what [Thermostat.__init__] builds.  The object has the entity id
    and the unit it was given and the reverse mode map of the entity's mode
    list; [chars] names the two thresholds exactly when the entity has the
    range feature and the two humidities exactly when it has the humidity
    feature; and each optional characteristic exists exactly when [chars]
    names it, so that the thresholds come together. *)
Theorem thermostat_init_well_formed (entity unit : string)
    (hass_state : State) (target_mode_start : pyval) (self : Thermostat) :
  let features := attr_get_default hass_state ATTR_SUPPORTED_FEATURES (PInt 0) in
  Thermostat_init entity unit hass_state target_mode_start = Ok self ->
  well_formed self
  /\ entity_id self = entity /\ _unit self = unit
  /\ hc_homekit_to_hass self = init_hc_homekit_to_hass (hvac_modes hass_state)
  /\ exists range humidity : bool,
       has_feature features SUPPORT_TARGET_TEMPERATURE_RANGE = Ok range
       /\ has_feature features SUPPORT_TARGET_HUMIDITY = Ok humidity
       /\ chars self
          = ((if range
              then [CHAR_COOLING_THRESHOLD_TEMPERATURE;
                    CHAR_HEATING_THRESHOLD_TEMPERATURE]
              else [])
             ++ (if humidity
                 then [CHAR_TARGET_HUMIDITY; CHAR_CURRENT_HUMIDITY]
                 else []))%list.
Proof using Type.
  cbv zeta. unfold Thermostat_init.
  destruct (init_temperature_range _ hass_state) as [[lo hi] | e];
    [| discriminate].
  cbn [mbind result_bind rbind].
  destruct (has_feature _ SUPPORT_TARGET_TEMPERATURE_RANGE) as [range | e];
    [| discriminate].
  cbn [mbind result_bind rbind].
  destruct (has_feature _ SUPPORT_TARGET_HUMIDITY) as [humidity | e];
    [| discriminate].
  cbn [mbind result_bind rbind].
  match goal with
  | |- context [run ?m ?s0] =>
      pose proof (update_state_seq_spec hass_state) as Hspec;
      pose proof (seq_config _ _ Hspec s0) as Hconfig;
      assert (Hwf0 : well_formed s0);
      [| pose proof (well_formed_seq _ _ s0 Hspec Hwf0) as Hwf;
         destruct (run m s0) as [[u | e] [s1 log]]; [| discriminate] ]
  end.
  { split.
    - intros c Hc. cbn [chars].
      repeat (apply elem_of_cons in Hc as [-> | Hc]);
        [| | | | by apply elem_of_nil in Hc];
        cbn [char_of char_cooling_thresh_temp char_heating_thresh_temp
             char_target_humidity char_current_humidity];
        apply configured_present.
    - cbn [char_cooling_thresh_temp char_heating_thresh_temp].
      rewrite <- !configured_present.
      clear. destruct range, humidity; cbn [app];
        rewrite ?elem_of_cons, ?elem_of_nil; split; intros H;
        repeat destruct H as [H | H]; try discriminate H; try contradiction;
        auto. }
  intros [= <-]. unfold obj_after in *. cbn [fst snd] in *.
  destruct Hconfig as (He & Hu & Hc & Hm).
  split; [exact Hwf |]. repeat split; try assumption.
  exists range, humidity. repeat split.
  rewrite Hc. cbn [chars]. destruct range, humidity; reflexivity.
Qed.

End Accessories.

(** * The properties on concrete accessories

    The statements below evaluate the methods with the conversions of the
    spec, the range feature bit 2 and the single-setpoint bit 1, and the
    default range 7 to 35. *)

(** C1: [Thermostat.update_state] is not idempotent.  On the snapshot of the
    spec's end-to-end example (state heat_cool, low 18, high 24) the first
    call succeeds and writes the target mode and both thresholds, and a
    second call with the same snapshot writes the cooling threshold again:
    its block compares the new value, 24, with the value of the
    heating-threshold characteristic, 18. *)
Theorem update_state_second_call_writes :
  let update := update_state to_protocol_unit 2 (range_snapshot HVAC_MODE_HEAT_COOL 2) in
  let first_call := run update range_thermostat in
  let second_call := run update (obj_after first_call) in
  first_call.1 = Ok tt
  /\ writes_of first_call =
       [ (CHAR_TARGET_HEATING_COOLING, PInt 3);
         (CHAR_COOLING_THRESHOLD_TEMPERATURE, PInt 24);
         (CHAR_HEATING_THRESHOLD_TEMPERATURE, PInt 18) ]
  /\ second_call.1 = Ok tt
  /\ writes_of second_call = [ (CHAR_COOLING_THRESHOLD_TEMPERATURE, PInt 24) ]
  /\ obj_after second_call = obj_after first_call.
Proof. vm_compute. repeat split. Qed.

(** C2, as stated, fails: the block for the cooling threshold writes the
    cooling-threshold characteristic, not the heating-threshold one. *)
Lemma threshold_blocks_write_heating_false :
  ~ threshold_blocks_write_heating to_protocol_unit.
Proof.
  intros H.
  destruct (H (range_snapshot HVAC_MODE_HEAT_COOL 2) range_thermostat) as [Hcool _].
  vm_compute in Hcool.
  apply Forall_cons_1 in Hcool as [Hhead _].
  discriminate Hhead.
Qed.

(** The cooling block on the heat_cool snapshot: 24 is compared with the
    heating threshold 19 and written to the cooling threshold. *)
Lemma threshold_blocks_compare_heating_witness :
  run (update_cooling_thresh to_protocol_unit (range_snapshot HVAC_MODE_HEAT_COOL 2))
      range_thermostat
  = (Ok tt,
     (ref_set TRef.cooling_thresh_temp {| value := PInt 24 |} range_thermostat,
      [(CHAR_COOLING_THRESHOLD_TEMPERATURE, PInt 24)])).
Proof.
  exact (proj1 (threshold_blocks_compare_heating to_protocol_unit
                  (range_snapshot HVAC_MODE_HEAT_COOL 2) range_thermostat
                  {| value := PFloat 19 |} {| value := PFloat 23 |}
                  eq_refl eq_refl)
               (PInt 24) eq_refl eq_refl).
Defined.

(** With the default range 7 to 35 the call carries high 15 and low 10. *)
Lemma set_chars_cooling_below_heating_witness :
  _set_chars to_protocol_unit to_domain_unit (PInt 7) (PInt 35) 1 2
    range_thermostat (range_snapshot HVAC_MODE_HEAT_COOL 2)
    {[CHAR_COOLING_THRESHOLD_TEMPERATURE := PFloat 15]}
  = Ok [ {| call_domain := DOMAIN_CLIMATE;
            call_service := SERVICE_SET_TEMPERATURE_THERMOSTAT;
            call_params :=
              <[ATTR_ENTITY_ID := PStr "climate.test"]>
                (<[ATTR_TARGET_TEMP_LOW := PFloat 10]>
                   {[ATTR_TARGET_TEMP_HIGH := PFloat 15]});
            call_description :=
              [EvChar CHAR_COOLING_THRESHOLD_TEMPERATURE (PFloat 15)] |} ].
Proof.
  exact (proj2 (proj2
    (set_chars_cooling_below_heating to_protocol_unit to_domain_unit
       (PInt 7) (PInt 35) 1 2 range_thermostat
       (range_snapshot HVAC_MODE_HEAT_COOL 2) 3 7 35
       eq_refl eq_refl eq_refl eq_refl))).
Defined.

(** The two preference examples of the spec. *)
Lemma reverse_map_preference_witness :
  init_hc_homekit_to_hass
    (Some [HVAC_MODE_HEAT; HVAC_MODE_COOL; HVAC_MODE_HEAT_COOL; HVAC_MODE_AUTO])
    !! HC_HEAT_COOL_AUTO = Some HVAC_MODE_HEAT_COOL
  /\ init_hc_homekit_to_hass
       (Some [HVAC_MODE_HEAT; HVAC_MODE_COOL; HVAC_MODE_DRY])
       !! HC_HEAT_COOL_COOL = Some HVAC_MODE_COOL.
Proof.
  split.
  - apply (proj1 (reverse_map_preference
             [HVAC_MODE_HEAT; HVAC_MODE_COOL; HVAC_MODE_HEAT_COOL; HVAC_MODE_AUTO])).
    apply list_elem_of_In. simpl. right. right. left. reflexivity.
  - apply (proj1 (proj2 (reverse_map_preference
             [HVAC_MODE_HEAT; HVAC_MODE_COOL; HVAC_MODE_DRY]))).
    apply list_elem_of_In. simpl. right. left. reflexivity.
Defined.

(** dry, in a list without cool, comes back as a mode of the Cool class. *)
Lemma mode_round_trip_witness :
  exists s : string,
    int_dict_getitem
      (init_hc_homekit_to_hass (Some [HVAC_MODE_HEAT; HVAC_MODE_DRY; HVAC_MODE_FAN_ONLY]))
      (PInt HC_HEAT_COOL_COOL) = Ok s
    /\ subscript (dict_get s HC_HASS_TO_HOMEKIT) = Ok HC_HEAT_COOL_COOL.
Proof.
  apply (mode_round_trip [HVAC_MODE_HEAT; HVAC_MODE_DRY; HVAC_MODE_FAN_ONLY]
           HVAC_MODE_DRY HC_HEAT_COOL_COOL).
  - apply list_elem_of_In. simpl. right. left. reflexivity.
  - reflexivity.
Defined.

(** An entity in state heat receiving target mode 1. *)
Lemma set_chars_self_echo_witness :
  _set_chars to_protocol_unit to_domain_unit (PInt 7) (PInt 35) 1 2
    range_thermostat (range_snapshot HVAC_MODE_HEAT 2)
    {[CHAR_TARGET_HEATING_COOLING := PInt 1]}
  = Ok [].
Proof.
  exact (set_chars_self_echo to_protocol_unit to_domain_unit (PInt 7) (PInt 35)
           1 2 range_thermostat (range_snapshot HVAC_MODE_HEAT 2) (PInt 1) 1
           eq_refl eq_refl).
Defined.

(** The default range 7 to 35: declared as 10 to 35. *)
Lemma temperature_range_rounding_witness :
  get_temperature_range to_protocol_unit (PInt 7) (PInt 35) range_thermostat
    (range_snapshot HVAC_MODE_HEAT_COOL 2) = Ok (PFloat 7, PFloat 35)
  /\ exists (lo : pyval) (q : Q),
       init_temperature_range to_protocol_unit (PInt 7) (PInt 35)
         range_thermostat (range_snapshot HVAC_MODE_HEAT_COOL 2)
         = Ok (lo, PFloat 35)
       /\ num_of lo = Some q /\ (q == Qmax 7 10)%Q.
Proof.
  pose proof (temperature_range_rounding to_protocol_unit (PInt 7) (PInt 35)
                range_thermostat (range_snapshot HVAC_MODE_HEAT_COOL 2)
                (PInt 7) (PInt 35) 7 35 eq_refl eq_refl eq_refl eq_refl)
    as (Hrange & Hinit & _).
  split; [exact Hrange | exact Hinit].
Defined.

(** A humidity write while the entity is unavailable. *)
Lemma set_chars_unknown_state_witness :
  _set_chars to_protocol_unit to_domain_unit (PInt 7) (PInt 35) 1 2
    range_thermostat (range_snapshot "unavailable" 2)
    {[CHAR_TARGET_HUMIDITY := PInt 50]}
  = Err KeyError.
Proof.
  exact (set_chars_unknown_state to_protocol_unit to_domain_unit (PInt 7)
           (PInt 35) 1 2 range_thermostat (range_snapshot "unavailable" 2)
           {[CHAR_TARGET_HUMIDITY := PInt 50]} eq_refl).
Defined.

(** Three snapshots pushed to a water heater built from a fourth. *)
Lemma water_heater_current_temp_never_written_witness :
  value (wh_char_current_temp
           (WaterHeater_updates to_protocol_unit
              [water_heater_snapshot "eco" (PInt 60);
               water_heater_snapshot "eco" (PFloat 50);
               water_heater_snapshot "off" (PInt 45)]
              eco_water_heater).1) = PFloat 50
  /\ Forall (fun wr : write => wr.1 <> CHAR_CURRENT_TEMPERATURE)
       (WaterHeater_updates to_protocol_unit
          [water_heater_snapshot "eco" (PInt 60);
           water_heater_snapshot "eco" (PFloat 50);
           water_heater_snapshot "off" (PInt 45)]
          eco_water_heater).2.
Proof.
  exact (proj2 (water_heater_current_temp_never_written to_protocol_unit
                  (PInt 40) (PInt 60))
           "water_heater.test" TEMP_CELSIUS
           (water_heater_snapshot "eco" (PInt 55)) eco_water_heater
           [water_heater_snapshot "eco" (PInt 60);
            water_heater_snapshot "eco" (PFloat 50);
            water_heater_snapshot "off" (PInt 45)]
           eq_refl).
Defined.

(** The target 55 is written although the target characteristic holds 55
    already: the current-temperature characteristic holds 50. *)
Lemma water_heater_target_temp_write_witness :
  (CHAR_TARGET_TEMPERATURE, PInt 55)
    ∈ writes_of (run (WaterHeater_update_state to_protocol_unit
                        (water_heater_snapshot "eco" (PInt 55)))
                     eco_water_heater).
Proof.
  apply (proj1 (water_heater_target_temp_write to_protocol_unit
                  (water_heater_snapshot "eco" (PInt 55)) eco_water_heater
                  (PInt 55))).
  repeat split.
Defined.

(** A humidity write while the entity heats: the humidity call alone. *)
Lemma set_chars_calls_shape_witness :
  exists climate : list service_call,
    [set_target_humidity range_thermostat (PInt 40)]
    = (climate ++
       match ({[CHAR_TARGET_HUMIDITY := PInt 40]} : gmap char_id pyval)
               !! CHAR_TARGET_HUMIDITY with
       | Some v => [set_target_humidity range_thermostat v]
       | None => []
       end)%list
    /\ (length climate <= 1)%nat
    /\ Forall (fun c : service_call =>
                 call_domain c = DOMAIN_CLIMATE
                 /\ (call_service c = SERVICE_SET_HVAC_MODE_THERMOSTAT
                     \/ call_service c = SERVICE_SET_TEMPERATURE_THERMOSTAT)
                 /\ call_params c !! ATTR_ENTITY_ID
                    = Some (PStr (entity_id range_thermostat)))
              climate.
Proof.
  exact (set_chars_calls_shape to_protocol_unit to_domain_unit (PInt 7)
           (PInt 35) 1 2 range_thermostat (range_snapshot HVAC_MODE_HEAT 2)
           {[CHAR_TARGET_HUMIDITY := PInt 40]}
           [set_target_humidity range_thermostat (PInt 40)] eq_refl).
Defined.

(** The mode 7 is no key of the reverse map. *)
Lemma set_chars_unsupported_mode_witness :
  _set_chars to_protocol_unit to_domain_unit (PInt 7) (PInt 35) 1 2
    range_thermostat (range_snapshot HVAC_MODE_HEAT 2)
    {[CHAR_TARGET_HEATING_COOLING := PInt 7]}
  = Err KeyError.
Proof.
  apply (set_chars_unsupported_mode to_protocol_unit to_domain_unit (PInt 7)
           (PInt 35) 1 2 range_thermostat (range_snapshot HVAC_MODE_HEAT 2)
           {[CHAR_TARGET_HEATING_COOLING := PInt 7]} (PInt 7) 1).
  - reflexivity.
  - reflexivity.
  - reflexivity.
  - intros z [= <-]. reflexivity.
Defined.

(** A range entity in heat_cool: the target temperature 22 is dropped. *)
Lemma set_chars_target_temp_dropped_witness :
  _set_chars to_protocol_unit to_domain_unit (PInt 7) (PInt 35) 1 2
    range_thermostat (range_snapshot HVAC_MODE_HEAT_COOL 2)
    {[CHAR_TARGET_TEMPERATURE := PFloat 22]}
  = Ok [].
Proof.
  apply (set_chars_target_temp_dropped to_protocol_unit to_domain_unit
           (PInt 7) (PInt 35) 1 2 range_thermostat
           (range_snapshot HVAC_MODE_HEAT_COOL 2) (PFloat 22) 3).
  - reflexivity.
  - reflexivity.
  - right. repeat split; discriminate.
Defined.

(** A range entity in heat: the target temperature 22 is a heating
    threshold. *)
Lemma set_chars_target_temp_redirect_witness :
  _set_chars to_protocol_unit to_domain_unit (PInt 7) (PInt 35) 1 2
    range_thermostat (range_snapshot HVAC_MODE_HEAT 2)
    {[CHAR_TARGET_TEMPERATURE := PFloat 22]}
  = _set_chars to_protocol_unit to_domain_unit (PInt 7) (PInt 35) 1 2
      range_thermostat (range_snapshot HVAC_MODE_HEAT 2)
      (<[CHAR_HEATING_THRESHOLD_TEMPERATURE := PFloat 22]>
         {[CHAR_TARGET_TEMPERATURE := PFloat 22]}).
Proof.
  pose proof (set_chars_target_temp_redirect to_protocol_unit to_domain_unit
                (PInt 7) (PInt 35) 1 2 range_thermostat
                (range_snapshot HVAC_MODE_HEAT 2)
                {[CHAR_TARGET_TEMPERATURE := PFloat 22]} (PFloat 22)) as H.
  cbv zeta in H.
  destruct H as [H _]; [reflexivity | reflexivity | reflexivity |].
  apply H; reflexivity.
Defined.


(** A threshold write to a thermostat with a single setpoint. *)
Lemma set_chars_threshold_without_chars_witness :
  _set_chars to_protocol_unit to_domain_unit (PInt 7) (PInt 35) 1 2
    setpoint_thermostat (range_snapshot HVAC_MODE_HEAT 1)
    {[CHAR_HEATING_THRESHOLD_TEMPERATURE := PFloat 20]}
  = Err AttributeError.
Proof.
  apply (set_chars_threshold_without_chars to_protocol_unit to_domain_unit
           (PInt 7) (PInt 35) 1 2 setpoint_thermostat
           (range_snapshot HVAC_MODE_HEAT 1)
           {[CHAR_HEATING_THRESHOLD_TEMPERATURE := PFloat 20]} 1).
  - reflexivity.
  - reflexivity.
  - reflexivity.
  - left. exists (PFloat 20). reflexivity.
  - reflexivity.
Defined.

(** From heat to cool at 22 degrees in one write. *)
Lemma set_chars_mode_and_temperature_witness :
  _set_chars to_protocol_unit to_domain_unit (PInt 7) (PInt 35) 1 2
    range_thermostat (range_snapshot HVAC_MODE_HEAT 1)
    (<[CHAR_TARGET_TEMPERATURE := PFloat 22]>
       {[CHAR_TARGET_HEATING_COOLING := PInt 2]})
  = Ok [ {| call_domain := DOMAIN_CLIMATE;
            call_service := SERVICE_SET_TEMPERATURE_THERMOSTAT;
            call_params :=
              <[ATTR_ENTITY_ID := PStr "climate.test"]>
                (<[ATTR_TEMPERATURE := PFloat 22]>
                   {[ATTR_HVAC_MODE := PStr HVAC_MODE_COOL]});
            call_description :=
              [EvChar CHAR_TARGET_HEATING_COOLING (PInt 2);
               EvChar CHAR_TARGET_TEMPERATURE (PFloat 22)] |} ].
Proof.
  exact (set_chars_mode_and_temperature to_protocol_unit to_domain_unit
           (PInt 7) (PInt 35) 1 2 range_thermostat
           (range_snapshot HVAC_MODE_HEAT 1) (PInt 2) (PFloat 22) (PFloat 22)
           1 HVAC_MODE_COOL eq_refl eq_refl eq_refl eq_refl eq_refl).
Defined.


(** The heat_cool snapshot leaves the two thresholds in place. *)
Lemma update_state_keeps_shape_witness :
  chars (obj_after (run (update_state to_protocol_unit 2
                           (range_snapshot HVAC_MODE_HEAT_COOL 2))
                        range_thermostat))
  = chars range_thermostat.
Proof.
  apply (update_state_keeps_shape to_protocol_unit 2
           (range_snapshot HVAC_MODE_HEAT_COOL 2) range_thermostat).
Defined.





(** Three snapshots, one of them in state off. *)
Lemma water_heater_mode_stays_heat_witness :
  value (wh_char_target_heat_cool
           (WaterHeater_updates to_protocol_unit
              [water_heater_snapshot "eco" (PInt 60);
               water_heater_snapshot "off" (PInt 45)]
              eco_water_heater).1) = PInt 1
  /\ Forall (fun wr : write => wr.1 <> CHAR_TARGET_HEATING_COOLING)
       (WaterHeater_updates to_protocol_unit
          [water_heater_snapshot "eco" (PInt 60);
           water_heater_snapshot "off" (PInt 45)]
          eco_water_heater).2.
Proof.
  exact (water_heater_mode_stays_heat to_protocol_unit (PInt 40) (PInt 60)
           "water_heater.test" TEMP_CELSIUS
           (water_heater_snapshot "eco" (PInt 55)) eco_water_heater
           [water_heater_snapshot "eco" (PInt 60);
            water_heater_snapshot "off" (PInt 45)]
           eq_refl).
Defined.

(** A request for Heat changes nothing. *)
Lemma water_heater_set_heat_cool_witness :
  run (WaterHeater_set_heat_cool (PInt 1)) eco_water_heater
  = (Ok tt, (eco_water_heater, [])).
Proof.
  exact (water_heater_set_heat_cool (PInt 1) eco_water_heater).
Defined.


(** The default range 7 to 35 stays in order, also with the floor of 10. *)
Lemma temperature_range_ordered_witness :
  exists (rmin rmax : Q) (lo : pyval) (qlo : Q),
    get_temperature_range to_protocol_unit (PInt 7) (PInt 35)
      range_thermostat (range_snapshot HVAC_MODE_HEAT_COOL 2)
      = Ok (PFloat rmin, PFloat rmax)
    /\ (rmin <= rmax)%Q
    /\ init_temperature_range to_protocol_unit (PInt 7) (PInt 35)
         range_thermostat (range_snapshot HVAC_MODE_HEAT_COOL 2)
         = Ok (lo, PFloat rmax)
    /\ num_of lo = Some qlo
    /\ ((10 <= 35)%Q -> (qlo <= rmax)%Q)
    /\ ((35 < 39 # 4)%Q -> (rmax < qlo)%Q).
Proof.
  apply (temperature_range_ordered to_protocol_unit (PInt 7) (PInt 35)
           range_thermostat (range_snapshot HVAC_MODE_HEAT_COOL 2)
           (PInt 7) (PInt 35) 7 35 eq_refl eq_refl eq_refl eq_refl).
  vm_compute. discriminate.
Defined.

(** The default range 40 to 60 of a water heater. *)
Lemma water_heater_range_rounding_witness :
  WaterHeater_get_temperature_range to_protocol_unit (PInt 40) (PInt 60)
    TEMP_CELSIUS (water_heater_snapshot "eco" (PInt 55))
  = Ok (PFloat (Qred (nearest_half 40)), PFloat (Qred (nearest_half 60))).
Proof.
  exact (proj1 (water_heater_range_rounding to_protocol_unit (PInt 40)
                  (PInt 60) TEMP_CELSIUS
                  (water_heater_snapshot "eco" (PInt 55))
                  (PInt 40) (PInt 60) 40 60 eq_refl eq_refl eq_refl eq_refl)).
Defined.



(** The range thermostat is the one [__init__] builds for the heat_cool
    entity, once the entity's state has been pushed through. *)
Lemma thermostat_init_well_formed_witness :
  well_formed
    (obj_after (run (update_state to_protocol_unit 2
                       (range_snapshot HVAC_MODE_HEAT_COOL 2))
                    range_thermostat)).
Proof.
  apply (thermostat_init_well_formed to_protocol_unit (PInt 7) (PInt 35) 2 4
           "climate.test" TEMP_CELSIUS (range_snapshot HVAC_MODE_HEAT_COOL 2)
           (PInt 0)).
  reflexivity.
Defined.
